(** * ZeroTierOne.h: the external C API of the ZeroTier core

    A shallow embedding of [include/ZeroTierOne.h]: its constants, its
    result codes with the [ZT_ResultCode_isFatal] macro, and the structures
    the query entry points fill in.  The header only declares the node's
    entry points; their bodies live in [node/], so the parts of the engine
    the properties below depend on are modelled after the specification and
    the header's documentation, each such definition saying so. *)

From stdpp Require Import base gmap list.

Local Open Scope Z_scope.

(** ** Core constants *)

(** [#define ZT_DEFAULT_PORT 9993] *)
Definition ZT_DEFAULT_PORT : Z := 9993.

(** [#define ZT_MAX_MTU 2800] *)
Definition ZT_MAX_MTU : Z := 2800.

(** [#define ZT_MAX_NETWORK_SHORT_NAME_LENGTH 255] *)
Definition ZT_MAX_NETWORK_SHORT_NAME_LENGTH : Z := 255.

(** [#define ZT_MAX_ZT_ASSIGNED_ADDRESSES 16] *)
Definition ZT_MAX_ZT_ASSIGNED_ADDRESSES : Z := 16.

(** [#define ZT_MAX_NETWORK_MULTICAST_SUBSCRIPTIONS 4096] *)
Definition ZT_MAX_NETWORK_MULTICAST_SUBSCRIPTIONS : Z := 4096.

(** [#define ZT_MAX_PEER_NETWORK_PATHS 4] *)
Definition ZT_MAX_PEER_NETWORK_PATHS : Z := 4.

(** [#define ZT_CIRCUIT_TEST_MAX_HOPS 512] *)
Definition ZT_CIRCUIT_TEST_MAX_HOPS : Z := 512.

(** [#define ZT_CIRCUIT_TEST_MAX_HOP_BREADTH 256] *)
Definition ZT_CIRCUIT_TEST_MAX_HOP_BREADTH : Z := 256.

(** [#define ZT_CLUSTER_MAX_MEMBERS 128] *)
Definition ZT_CLUSTER_MAX_MEMBERS : Z := 128.

(** [#define ZT_CLUSTER_MAX_MESSAGE_LENGTH (1500 - 48)] *)
Definition ZT_CLUSTER_MAX_MESSAGE_LENGTH : Z := 1500 - 48.

(** ** Result codes *)

(** [enum ZT_ResultCode] *)
Inductive ZT_ResultCode : Set :=
  | ZT_RESULT_OK
  | ZT_RESULT_FATAL_ERROR_OUT_OF_MEMORY
  | ZT_RESULT_FATAL_ERROR_DATA_STORE_FAILED
  | ZT_RESULT_FATAL_ERROR_INTERNAL
  | ZT_RESULT_ERROR_NETWORK_NOT_FOUND
  | ZT_RESULT_ERROR_UNSUPPORTED_OPERATION
  | ZT_RESULT_ERROR_BAD_PARAMETER.

(** The enumerators' values, as the header assigns them. *)
Definition ZT_ResultCode_value (x : ZT_ResultCode) : Z :=
  match x with
  | ZT_RESULT_OK => 0
  | ZT_RESULT_FATAL_ERROR_OUT_OF_MEMORY => 1
  | ZT_RESULT_FATAL_ERROR_DATA_STORE_FAILED => 2
  | ZT_RESULT_FATAL_ERROR_INTERNAL => 3
  | ZT_RESULT_ERROR_NETWORK_NOT_FOUND => 1000
  | ZT_RESULT_ERROR_UNSUPPORTED_OPERATION => 1001
  | ZT_RESULT_ERROR_BAD_PARAMETER => 1002
  end.

(** The cast [(int)(x)]: a 32-bit two's complement [int]. *)
Definition int_cast (z : Z) : Z := (z + 2 ^ 31) mod 2 ^ 32 - 2 ^ 31.

(** [#define ZT_ResultCode_isFatal(x) ((((int)(x)) > 0)&&(((int)(x)) < 1000))] *)
Definition ZT_ResultCode_isFatal (x : Z) : bool :=
  (int_cast x >? 0) && (int_cast x <? 1000).

(** A result that reports an error (anything but [ZT_RESULT_OK]) and that
    the macro does not call fatal. *)
Definition ZT_ResultCode_isNonFatalError (x : ZT_ResultCode) : bool :=
  negb (ZT_ResultCode_value x =? 0)
  && negb (ZT_ResultCode_isFatal (ZT_ResultCode_value x)).

(** ** Enumerations of the structures *)

(** [enum ZT_VirtualNetworkStatus] *)
Inductive ZT_VirtualNetworkStatus : Set :=
  | ZT_NETWORK_STATUS_REQUESTING_CONFIGURATION
  | ZT_NETWORK_STATUS_OK
  | ZT_NETWORK_STATUS_ACCESS_DENIED
  | ZT_NETWORK_STATUS_NOT_FOUND
  | ZT_NETWORK_STATUS_PORT_ERROR
  | ZT_NETWORK_STATUS_CLIENT_TOO_OLD.

(** [enum ZT_VirtualNetworkType] *)
Inductive ZT_VirtualNetworkType : Set :=
  | ZT_NETWORK_TYPE_PRIVATE
  | ZT_NETWORK_TYPE_PUBLIC.

(** [enum ZT_VirtualNetworkConfigOperation] *)
Inductive ZT_VirtualNetworkConfigOperation : Set :=
  | ZT_VIRTUAL_NETWORK_CONFIG_OPERATION_UP
  | ZT_VIRTUAL_NETWORK_CONFIG_OPERATION_CONFIG_UPDATE
  | ZT_VIRTUAL_NETWORK_CONFIG_OPERATION_DOWN
  | ZT_VIRTUAL_NETWORK_CONFIG_OPERATION_DESTROY.

(** [enum ZT_PeerRole] *)
Inductive ZT_PeerRole : Set :=
  | ZT_PEER_ROLE_LEAF
  | ZT_PEER_ROLE_RELAY
  | ZT_PEER_ROLE_ROOT.

(** ** Structures *)

(** [struct sockaddr_storage] comes from the system headers; the engine
    uses the family, the IP address and the port of it. *)
Record sockaddr_storage : Set := {
  ss_family : Z;
  ss_addr : Z;
  ss_port : Z
}.

#[global] Instance sockaddr_storage_eq_dec : EqDecision sockaddr_storage.
Proof. solve_decision. Defined.

(** [ZT_SOCKADDR_NULL]: all zero. *)
Definition ZT_SOCKADDR_NULL : sockaddr_storage :=
  {| ss_family := 0; ss_addr := 0; ss_port := 0 |}.

(** [ZT_MulticastGroup] *)
Record ZT_MulticastGroup : Set := {
  mac : Z;
  adi : Z
}.

#[global] Instance ZT_MulticastGroup_eq_dec : EqDecision ZT_MulticastGroup.
Proof. solve_decision. Defined.

(** [ZT_VirtualNetworkConfig]; [multicastSubscriptions] and
    [assignedAddresses] are the arrays
    [multicastSubscriptions[ZT_MAX_NETWORK_MULTICAST_SUBSCRIPTIONS]] and
    [assignedAddresses[ZT_MAX_ZT_ASSIGNED_ADDRESSES]]. *)
Record ZT_VirtualNetworkConfig : Set := {
  vnc_nwid : Z;
  vnc_mac : Z;
  vnc_name : list Z;
  vnc_status : ZT_VirtualNetworkStatus;
  vnc_type : ZT_VirtualNetworkType;
  mtu : Z;
  dhcp : Z;
  bridge : Z;
  broadcastEnabled : Z;
  portError : Z;
  enabled : Z;
  netconfRevision : Z;
  multicastSubscriptionCount : Z;
  multicastSubscriptions : list ZT_MulticastGroup;
  assignedAddressCount : Z;
  assignedAddresses : list sockaddr_storage
}.

(** [ZT_PeerPhysicalPath] *)
Record ZT_PeerPhysicalPath : Set := {
  address : sockaddr_storage;
  lastSend : Z;
  lastReceive : Z;
  active : Z;
  preferred : Z
}.

(** [ZT_Peer]; [paths] is the array [paths[ZT_MAX_PEER_NETWORK_PATHS]]. *)
Record ZT_Peer : Set := {
  peer_address : Z;
  lastUnicastFrame : Z;
  lastMulticastFrame : Z;
  versionMajor : Z;
  versionMinor : Z;
  versionRev : Z;
  latency : Z;
  role : ZT_PeerRole;
  pathCount : Z;
  paths : list ZT_PeerPhysicalPath
}.

(** One element of [ZT_CircuitTest.hops]; [addresses] is the array
    [addresses[ZT_CIRCUIT_TEST_MAX_HOP_BREADTH]]. *)
Record ZT_CircuitTestHop : Set := {
  flags : Z;
  breadth : Z;
  addresses : list Z
}.

(** [ZT_CircuitTest] (the two pointers left out); [hops] is the array
    [hops[ZT_CIRCUIT_TEST_MAX_HOPS]]. *)
Record ZT_CircuitTest : Set := {
  testId : Z;
  timestamp : Z;
  credentialNetworkId : Z;
  hops : list ZT_CircuitTestHop;
  hopCount : Z;
  reportAtEveryHop : Z
}.

(** ** Arrays of a fixed capacity *)

(** A C array member [T a[cap]], zero-initialised. *)
Definition carray_new {A : Type} (cap : Z) (zero : A) : list A :=
  replicate (Z.to_nat cap) zero.

(** [a[i] = x].  C leaves a write past the array undefined: [None]. *)
Definition carray_set {A : Type} (a : list A) (i : nat) (x : A) : option (list A) :=
  if decide (i < length a)%nat then Some (<[i:=x]> a) else None.

(** [for (each x of xs) { a[n] = x; ++n; }]: the array and the final
    count. *)
Fixpoint carray_fill {A : Type} (xs : list A) (n : nat) (a : list A)
  : option (nat * list A) :=
  match xs with
  | [] => Some (n, a)
  | x :: xs' =>
      match carray_set a n x with
      | Some a' => carray_fill xs' (S n) a'
      | None => None
      end
  end.

(** [n = min(size, capacity); for (i = 0; i < n; ++i) a[i] = xs[i];]: of
    a list longer than the array, only as many elements as the array has
    slots are written. *)
Definition carray_fill_bounded {A : Type} (xs : list A) (a : list A)
  : option (nat * list A) :=
  carray_fill (take (length a) xs) 0 a.

(** ** Further constants and enumerator values *)

(** [#define ZT_FEATURE_FLAG_THREAD_SAFE 0x00000001] *)
Definition ZT_FEATURE_FLAG_THREAD_SAFE : Z := 0x00000001.

(** [#define ZT_FEATURE_FLAG_FIPS 0x00000002] *)
Definition ZT_FEATURE_FLAG_FIPS : Z := 0x00000002.

(** The enumerators' values of [enum ZT_VirtualNetworkStatus]. *)
Definition ZT_VirtualNetworkStatus_value (x : ZT_VirtualNetworkStatus) : Z :=
  match x with
  | ZT_NETWORK_STATUS_REQUESTING_CONFIGURATION => 0
  | ZT_NETWORK_STATUS_OK => 1
  | ZT_NETWORK_STATUS_ACCESS_DENIED => 2
  | ZT_NETWORK_STATUS_NOT_FOUND => 3
  | ZT_NETWORK_STATUS_PORT_ERROR => 4
  | ZT_NETWORK_STATUS_CLIENT_TOO_OLD => 5
  end.

(** The enumerators' values of [enum ZT_VirtualNetworkConfigOperation]. *)
Definition ZT_VirtualNetworkConfigOperation_value
    (x : ZT_VirtualNetworkConfigOperation) : Z :=
  match x with
  | ZT_VIRTUAL_NETWORK_CONFIG_OPERATION_UP => 1
  | ZT_VIRTUAL_NETWORK_CONFIG_OPERATION_CONFIG_UPDATE => 2
  | ZT_VIRTUAL_NETWORK_CONFIG_OPERATION_DOWN => 3
  | ZT_VIRTUAL_NETWORK_CONFIG_OPERATION_DESTROY => 4
  end.

(** ** The engine behind the entry points

    The header declares the entry points; their bodies ([node/Node.cpp],
    [node/Network.cpp], [node/Peer.cpp], [node/Cluster.cpp]) are not part
    of the sources at hand.  The definitions of this part follow the
    specification and the header's documentation instead. *)

(** Modelled from the spec: the verbs the modelled entry points emit
    ([node/Packet.hpp] is missing). *)
Inductive Verb : Set :=
  | VERB_NETWORK_CONFIG_REQUEST
  | VERB_CIRCUIT_TEST.

(** Modelled from the spec: what the engine hands to the host (the bodies
    that call the host are missing): a call of the port configuration
    callback, of the wire packet sender, or of the cluster send function. *)
Inductive HostCall : Set :=
  | CallVirtualNetworkConfig (nwid : Z) (op : ZT_VirtualNetworkConfigOperation)
  | CallWirePacketSend (dest : Z) (verb : Verb)
  | CallClusterSend (member : Z) (msg : list Z).

(** Modelled from the spec: what the model leaves open.  This node's
    address; the MAC derived from a network ID and the node address; the
    answer of the host's port configuration callback, which may depend on
    every call the host has seen so far; and the result of [leave],
    [multicastSubscribe] and [multicastUnsubscribe] for a network the node
    has not joined, which neither the header nor the specification fixes. *)
Record Env : Type := {
  env_address : Z;
  env_mac : Z -> Z -> Z;
  env_portConfig : list HostCall -> Z -> ZT_VirtualNetworkConfigOperation -> Z;
  env_notJoined : ZT_ResultCode
}.

(** Modelled from the spec: the NetworkConfig record of the data model
    ([node/NetworkConfig.hpp] is missing). *)
Record NetworkConfig : Set := {
  nc_nwid : Z;
  nc_revision : Z;
  nc_name : list Z;
  nc_type : ZT_VirtualNetworkType;
  nc_mtu : Z;
  nc_dhcpHint : bool;
  nc_bridgeAllowed : bool;
  nc_broadcastEnabled : bool;
  nc_assignedAddresses : list sockaddr_storage;
  nc_multicastLimit : Z
}.

(** Modelled from the spec: the Network (VL2) record of the data model
    ([node/Network.hpp] is missing); [nw_multicastSubs] is the set of
    (MAC, ADI) pairs. *)
Record Network : Type := {
  nw_mac : Z;
  nw_config : option NetworkConfig;
  nw_status : ZT_VirtualNetworkStatus;
  nw_multicastSubs : gset (Z * Z);
  nw_portError : Z
}.

(** Modelled from the spec: the Path record of the data model
    ([node/Path.hpp] is missing). *)
Record Path : Set := {
  path_localAddr : sockaddr_storage;
  path_remoteAddr : sockaddr_storage;
  path_lastSend : Z;
  path_lastReceive : Z;
  path_active : bool;
  path_preferred : bool
}.

(** Modelled from the spec: the Peer record of the data model
    ([node/Peer.hpp] is missing). *)
Record Peer : Set := {
  p_paths : list Path;
  p_lastUnicastFrame : Z;
  p_lastMulticastFrame : Z;
  p_remoteVersion : option (Z * Z * Z);
  p_latency : Z;
  p_role : ZT_PeerRole
}.

(** Modelled from the spec: the cluster facility's state
    ([node/Cluster.hpp] is missing): this member's ID and its siblings. *)
Record Cluster : Type := {
  cl_myId : Z;
  cl_members : gset Z
}.

(** Modelled from the spec: an instance of the engine (the opaque
    [ZT_Node]; [node/Node.hpp] is missing): the joined networks by network
    ID, the peers by 40-bit address, the cluster state once initialised,
    the circuit tests listened for, and every call made to the host. *)
Record Node : Type := {
  networks : gmap Z Network;
  peers : gmap Z Peer;
  cluster : option Cluster;
  circuitTests : gset Z;
  calls : list HostCall
}.

(** Modelled from the spec: a node right after [ZT_Node_new]: no network,
    no peer, no cluster. *)
Definition Node_new : Node :=
  {| networks := ∅; peers := ∅; cluster := None; circuitTests := ∅; calls := [] |}.

(** Modelled from the spec: the updates of one field of [Node]. *)
Definition Node_set_networks (n : Node) (m : gmap Z Network) : Node :=
  {| networks := m; peers := peers n; cluster := cluster n;
     circuitTests := circuitTests n; calls := calls n |}.

(** Modelled from the spec: see [Node_set_networks]. *)
Definition Node_set_peers (n : Node) (m : gmap Z Peer) : Node :=
  {| networks := networks n; peers := m; cluster := cluster n;
     circuitTests := circuitTests n; calls := calls n |}.

(** Modelled from the spec: see [Node_set_networks]. *)
Definition Node_set_cluster (n : Node) (c : option Cluster) : Node :=
  {| networks := networks n; peers := peers n; cluster := c;
     circuitTests := circuitTests n; calls := calls n |}.

(** Modelled from the spec: see [Node_set_networks]. *)
Definition Node_set_circuitTests (n : Node) (t : gset Z) : Node :=
  {| networks := networks n; peers := peers n; cluster := cluster n;
     circuitTests := t; calls := calls n |}.

(** Modelled from the spec: the host is called: the call is appended to
    the record of calls. *)
Definition Node_call (n : Node) (c : HostCall) : Node :=
  {| networks := networks n; peers := peers n; cluster := cluster n;
     circuitTests := circuitTests n; calls := calls n ++ [c] |}.

(** *** Networks (VL2) *)

(** Modelled from the spec: a network takes a status. *)
Definition Network_set_status (nw : Network) (st : ZT_VirtualNetworkStatus) : Network :=
  {| nw_mac := nw_mac nw; nw_config := nw_config nw; nw_status := st;
     nw_multicastSubs := nw_multicastSubs nw; nw_portError := nw_portError nw |}.

(** Modelled from the spec: a network is put in [PORT_ERROR] with the code
    the callback returned. *)
Definition Network_set_portError (nw : Network) (rc : Z) : Network :=
  {| nw_mac := nw_mac nw; nw_config := nw_config nw;
     nw_status := ZT_NETWORK_STATUS_PORT_ERROR;
     nw_multicastSubs := nw_multicastSubs nw; nw_portError := rc |}.

(** Modelled from the spec: a network stores a configuration and turns
    [OK]. *)
Definition Network_set_config (nw : Network) (c : NetworkConfig) : Network :=
  {| nw_mac := nw_mac nw; nw_config := Some c; nw_status := ZT_NETWORK_STATUS_OK;
     nw_multicastSubs := nw_multicastSubs nw; nw_portError := nw_portError nw |}.

(** Modelled from the spec: a network's subscription set is replaced. *)
Definition Network_set_multicastSubs (nw : Network) (g : gset (Z * Z)) : Network :=
  {| nw_mac := nw_mac nw; nw_config := nw_config nw; nw_status := nw_status nw;
     nw_multicastSubs := g; nw_portError := nw_portError nw |}.

(** Modelled from the spec: a network as [join] inserts it, with
    [status = REQUESTING] and the MAC derived from the network ID and the
    node address ([Network::Network] is missing). *)
Definition Network_new (env : Env) (nwid : Z) : Network :=
  {| nw_mac := env_mac env nwid (env_address env);
     nw_config := None;
     nw_status := ZT_NETWORK_STATUS_REQUESTING_CONFIGURATION;
     nw_multicastSubs := ∅;
     nw_portError := 0 |}.

(** Modelled from the spec: the controller of a network is the node whose
    address is the upper 40 bits of the 64-bit network ID. *)
Definition controller_of (nwid : Z) : Z := Z.shiftr nwid 24.

(** Modelled from the spec: the port configuration callback is invoked for
    network [nwid]; a nonzero answer puts the network in [PORT_ERROR] with
    the returned code. *)
Definition Node_portConfig (env : Env) (n : Node) (nwid : Z)
    (op : ZT_VirtualNetworkConfigOperation) : Node :=
  let rc := env_portConfig env (calls n) nwid op in
  let n' := Node_call n (CallVirtualNetworkConfig nwid op) in
  if rc =? 0 then n'
  else Node_set_networks n'
         (alter (fun nw => Network_set_portError nw rc) nwid (networks n')).

(** Modelled from the spec: [ZT_Node_join] ([Node::join] is missing).  If
    the node is already a member of the network, nothing is done and OK is
    returned; otherwise a network with [status = REQUESTING] is inserted,
    the port configuration callback fires with [UP], and a
    NETWORK_CONFIG_REQUEST goes to the controller. *)
Definition ZT_Node_join (env : Env) (n : Node) (nwid : Z) : Node * ZT_ResultCode :=
  match networks n !! nwid with
  | Some _ => (n, ZT_RESULT_OK)
  | None =>
      let n1 := Node_set_networks n (<[nwid := Network_new env nwid]> (networks n)) in
      let n2 := Node_portConfig env n1 nwid ZT_VIRTUAL_NETWORK_CONFIG_OPERATION_UP in
      (Node_call n2 (CallWirePacketSend (controller_of nwid) VERB_NETWORK_CONFIG_REQUEST),
       ZT_RESULT_OK)
  end.

(** Modelled from the spec: [ZT_Node_leave] ([Node::leave] is missing):
    the port configuration callback fires with [DOWN] then [DESTROY], and
    the network is removed. *)
Definition ZT_Node_leave (env : Env) (n : Node) (nwid : Z) : Node * ZT_ResultCode :=
  match networks n !! nwid with
  | None => (n, env_notJoined env)
  | Some _ =>
      let n1 := Node_call n
                  (CallVirtualNetworkConfig nwid ZT_VIRTUAL_NETWORK_CONFIG_OPERATION_DOWN) in
      let n2 := Node_call n1
                  (CallVirtualNetworkConfig nwid ZT_VIRTUAL_NETWORK_CONFIG_OPERATION_DESTROY) in
      (Node_set_networks n2 (delete nwid (networks n2)), ZT_RESULT_OK)
  end.

(** Modelled from the spec: the multicast group an entry point names
    ([node/MulticastGroup.hpp] is missing): the least significant 48
    bits of [multicastGroup] and the least significant 32 bits of
    [multicastAdi], as the header documents the two parameters. *)
Definition MulticastGroup_of (multicastGroup multicastAdi : Z) : Z * Z :=
  (Z.land multicastGroup 0xffffffffffff, Z.land multicastAdi 0xffffffff).

(** Modelled from the spec: [ZT_Node_multicastSubscribe]
    ([Node::multicastSubscribe] is missing): the group joins the network's
    subscription set; the port configuration callback is not invoked. *)
Definition ZT_Node_multicastSubscribe (env : Env) (n : Node)
    (nwid multicastGroup multicastAdi : Z) : Node * ZT_ResultCode :=
  match networks n !! nwid with
  | None => (n, env_notJoined env)
  | Some nw =>
      let subs := {[ MulticastGroup_of multicastGroup multicastAdi ]} ∪ nw_multicastSubs nw in
      (Node_set_networks n (<[nwid := Network_set_multicastSubs nw subs]> (networks n)),
       ZT_RESULT_OK)
  end.

(** Modelled from the spec: [ZT_Node_multicastUnsubscribe]
    ([Node::multicastUnsubscribe] is missing): a [multicastGroup] of zero
    unsubscribes from all groups. *)
Definition ZT_Node_multicastUnsubscribe (env : Env) (n : Node)
    (nwid multicastGroup multicastAdi : Z) : Node * ZT_ResultCode :=
  match networks n !! nwid with
  | None => (n, env_notJoined env)
  | Some nw =>
      let subs :=
        if multicastGroup =? 0 then ∅
        else nw_multicastSubs nw ∖ {[ MulticastGroup_of multicastGroup multicastAdi ]} in
      (Node_set_networks n (<[nwid := Network_set_multicastSubs nw subs]> (networks n)),
       ZT_RESULT_OK)
  end.

(** Modelled from the spec: the bounds the data model puts on a
    NetworkConfig: [mtu ≤ 2800] and at most 16 assigned addresses. *)
Definition NetworkConfig_fits (c : NetworkConfig) : bool :=
  (0 <=? nc_mtu c) && (nc_mtu c <=? ZT_MAX_MTU)
  && (Z.of_nat (length (nc_assignedAddresses c)) <=? ZT_MAX_ZT_ASSIGNED_ADDRESSES).

(** Modelled from the spec: the revision of the cached configuration; zero
    while the network still waits for one. *)
Definition Network_revision (nw : Network) : Z :=
  from_option nc_revision 0 (nw_config nw).

(** Modelled from the spec: config receipt ([Network::setConfiguration] is
    missing).  The signature must be the controller's, the enclosed network
    ID must match, the configuration must respect the data model's bounds
    and the revision must not go down; then the configuration is stored,
    the network turns [OK] and the callback fires with [CONFIG_UPDATE]. *)
Definition Node_configReceived (env : Env) (n : Node) (nwid : Z)
    (signatureValid : bool) (c : NetworkConfig) : Node :=
  match networks n !! nwid with
  | None => n
  | Some nw =>
      if signatureValid && (nc_nwid c =? nwid) && NetworkConfig_fits c
         && (Network_revision nw <=? nc_revision c)
      then
        Node_portConfig env
          (Node_set_networks n (<[nwid := Network_set_config nw c]> (networks n)))
          nwid ZT_VIRTUAL_NETWORK_CONFIG_OPERATION_CONFIG_UPDATE
      else n
  end.

(** Modelled from the spec: the errors a controller answers a
    configuration request with. *)
Inductive ControllerError : Set :=
  | ERR_ACCESS_DENIED
  | ERR_NOT_FOUND
  | ERR_OBSOLETE.

(** Modelled from the spec: the status a controller's error puts the
    network in. *)
Definition ControllerError_status (e : ControllerError) : ZT_VirtualNetworkStatus :=
  match e with
  | ERR_ACCESS_DENIED => ZT_NETWORK_STATUS_ACCESS_DENIED
  | ERR_NOT_FOUND => ZT_NETWORK_STATUS_NOT_FOUND
  | ERR_OBSOLETE => ZT_NETWORK_STATUS_CLIENT_TOO_OLD
  end.

(** Modelled from the spec: the controller answered with an error
    ([Network::setAccessDenied] and [Network::setNotFound] are missing):
    the network takes the respective status and the callback fires with
    [CONFIG_UPDATE]. *)
Definition Node_configError (env : Env) (n : Node) (nwid : Z) (e : ControllerError) : Node :=
  match networks n !! nwid with
  | None => n
  | Some nw =>
      Node_portConfig env
        (Node_set_networks n
           (<[nwid := Network_set_status nw (ControllerError_status e)]> (networks n)))
        nwid ZT_VIRTUAL_NETWORK_CONFIG_OPERATION_CONFIG_UPDATE
  end.

(** A C [int] used as a boolean. *)
Definition bool_to_int (b : bool) : Z := if b then 1 else 0.

(** Modelled from the spec: a (MAC, ADI) pair of a subscription set as the
    [ZT_MulticastGroup] that reports it. *)
Definition ZT_MulticastGroup_of_pair (g : Z * Z) : ZT_MulticastGroup :=
  {| mac := g.1; adi := g.2 |}.

(** A zeroed [ZT_MulticastGroup]. *)
Definition ZT_MulticastGroup_zero : ZT_MulticastGroup := {| mac := 0; adi := 0 |}.

(** Modelled from the spec: the structure [ZT_Node_networkConfig] reports
    for a joined network ([Network::externalConfig] is missing): the
    subscriptions and the assigned addresses are written into the
    structure's two arrays, each with its count.  The arrays have a fixed
    capacity: of a network with more subscriptions (or addresses) than
    slots, as many as there are slots are reported, the first of the set's
    enumeration.  The [None] branch is never taken (see
    [Network_externalConfig_total]). *)
Definition Network_externalConfig (nwid : Z) (nw : Network) : option ZT_VirtualNetworkConfig :=
  match
    carray_fill_bounded (ZT_MulticastGroup_of_pair <$> elements (nw_multicastSubs nw))
      (carray_new ZT_MAX_NETWORK_MULTICAST_SUBSCRIPTIONS ZT_MulticastGroup_zero),
    carray_fill_bounded (from_option nc_assignedAddresses [] (nw_config nw))
      (carray_new ZT_MAX_ZT_ASSIGNED_ADDRESSES ZT_SOCKADDR_NULL)
  with
  | Some (mc, ms), Some (ac, aa) =>
      Some {| vnc_nwid := nwid;
              vnc_mac := nw_mac nw;
              vnc_name := from_option nc_name [] (nw_config nw);
              vnc_status := nw_status nw;
              vnc_type := from_option nc_type ZT_NETWORK_TYPE_PRIVATE (nw_config nw);
              mtu := from_option nc_mtu ZT_MAX_MTU (nw_config nw);
              dhcp := bool_to_int (from_option nc_dhcpHint false (nw_config nw));
              bridge := bool_to_int (from_option nc_bridgeAllowed false (nw_config nw));
              broadcastEnabled :=
                bool_to_int (from_option nc_broadcastEnabled false (nw_config nw));
              portError := nw_portError nw;
              enabled := 1;
              netconfRevision := Network_revision nw;
              multicastSubscriptionCount := Z.of_nat mc;
              multicastSubscriptions := ms;
              assignedAddressCount := Z.of_nat ac;
              assignedAddresses := aa |}
  | _, _ => None
  end.

(** Modelled from the spec: [ZT_Node_networkConfig]
    ([Node::networkConfig] is missing): the configuration of a joined
    network; [None] is the NULL result for a network the node is not a
    member of. *)
Definition ZT_Node_networkConfig (n : Node) (nwid : Z) : option ZT_VirtualNetworkConfig :=
  match networks n !! nwid with
  | Some nw => Network_externalConfig nwid nw
  | None => None
  end.

(** *** Peers and paths *)

(** Modelled from the spec: a path is alive while
    [now − lastReceive < PATH_ALIVE_TIMEOUT], about 60 seconds; the clock
    counts milliseconds. *)
Definition PATH_ALIVE_TIMEOUT : Z := 60000.

(** Modelled from the spec: see [PATH_ALIVE_TIMEOUT]. *)
Definition Path_alive (now : Z) (p : Path) : bool :=
  now - path_lastReceive p <? PATH_ALIVE_TIMEOUT.

(** Modelled from the spec: a path is known by its two addresses. *)
Definition Path_same (localAddr remoteAddr : sockaddr_storage) (p : Path) : bool :=
  bool_decide (path_localAddr p = localAddr) && bool_decide (path_remoteAddr p = remoteAddr).

(** Modelled from the spec: a path records a receipt at time [now]. *)
Definition Path_received (now : Z) (p : Path) : Path :=
  {| path_localAddr := path_localAddr p; path_remoteAddr := path_remoteAddr p;
     path_lastSend := path_lastSend p; path_lastReceive := now;
     path_active := true; path_preferred := path_preferred p |}.

(** Modelled from the spec: the index of the least recently received path
    among [ps], which start
    at index [i]; [best] with [bestT] is the candidate so far. *)
Fixpoint Path_oldest_from (best : nat) (bestT : Z) (i : nat) (ps : list Path) : nat :=
  match ps with
  | [] => best
  | p :: ps' =>
      if path_lastReceive p <? bestT
      then Path_oldest_from i (path_lastReceive p) (S i) ps'
      else Path_oldest_from best bestT (S i) ps'
  end.

(** Modelled from the spec: the index of the least recently received path
    of a list, the first of them on a tie. *)
Definition Path_oldest (ps : list Path) : nat :=
  match ps with
  | [] => 0%nat
  | p :: ps' => Path_oldest_from 0 (path_lastReceive p) 1 ps'
  end.

(** Modelled from the spec: a path enters a peer's path list
    ([Peer::addPath] is missing): at most [ZT_MAX_PEER_NETWORK_PATHS] paths
    per peer; when the list is full the least recently received path is
    evicted. *)
Definition Peer_addPath (p : Path) (ps : list Path) : list Path :=
  if Z.of_nat (length ps) <? ZT_MAX_PEER_NETWORK_PATHS then ps ++ [p]
  else <[Path_oldest ps := p]> ps.

(** Modelled from the spec: an authenticated packet arrived from the peer
    over (localAddr, remoteAddr) at time [now] ([Peer::received] is
    missing): a known path records the receipt, a new one enters the
    list. *)
Definition Peer_received (now : Z) (localAddr remoteAddr : sockaddr_storage)
    (ps : list Path) : list Path :=
  if existsb (Path_same localAddr remoteAddr) ps
  then (fun p => if Path_same localAddr remoteAddr p then Path_received now p else p) <$> ps
  else Peer_addPath
         {| path_localAddr := localAddr; path_remoteAddr := remoteAddr;
            path_lastSend := 0; path_lastReceive := now;
            path_active := true; path_preferred := false |} ps.

(** Modelled from the spec: a PUSH_DIRECT_PATHS hint names an endpoint of
    the peer: a path not yet known enters the list, never received on. *)
Definition Peer_pushDirectPath (localAddr remoteAddr : sockaddr_storage)
    (ps : list Path) : list Path :=
  if existsb (Path_same localAddr remoteAddr) ps then ps
  else Peer_addPath
         {| path_localAddr := localAddr; path_remoteAddr := remoteAddr;
            path_lastSend := 0; path_lastReceive := 0;
            path_active := false; path_preferred := false |} ps.

(** Modelled from the spec: paths age out when unused ([Peer::clean] is
    missing). *)
Definition Peer_clean (now : Z) (ps : list Path) : list Path :=
  filter (fun p => Path_alive now p = true) ps.

(** Modelled from the spec: a peer's path list is replaced. *)
Definition Peer_set_paths (p : Peer) (ps : list Path) : Peer :=
  {| p_paths := ps; p_lastUnicastFrame := p_lastUnicastFrame p;
     p_lastMulticastFrame := p_lastMulticastFrame p;
     p_remoteVersion := p_remoteVersion p; p_latency := p_latency p;
     p_role := p_role p |}.

(** Modelled from the spec: a peer is created on the first authenticated
    sighting. *)
Definition Peer_new : Peer :=
  {| p_paths := []; p_lastUnicastFrame := 0; p_lastMulticastFrame := 0;
     p_remoteVersion := None; p_latency := 0; p_role := ZT_PEER_ROLE_LEAF |}.

(** Modelled from the spec: the peer with 40-bit address [addr], created
    if not yet known, has its
    path list updated by [f]. *)
Definition Node_update_peer (n : Node) (addr : Z) (f : list Path -> list Path) : Node :=
  let p := default Peer_new (peers n !! addr) in
  Node_set_peers n (<[addr := Peer_set_paths p (f (p_paths p))]> (peers n)).

(** Modelled from the spec: a path as the [ZT_PeerPhysicalPath] that
    reports it. *)
Definition ZT_PeerPhysicalPath_of (p : Path) : ZT_PeerPhysicalPath :=
  {| address := path_remoteAddr p;
     lastSend := path_lastSend p;
     lastReceive := path_lastReceive p;
     active := bool_to_int (path_active p);
     preferred := bool_to_int (path_preferred p) |}.

(** A zeroed [ZT_PeerPhysicalPath]. *)
Definition ZT_PeerPhysicalPath_zero : ZT_PeerPhysicalPath :=
  {| address := ZT_SOCKADDR_NULL; lastSend := 0; lastReceive := 0;
     active := 0; preferred := 0 |}.

(** Modelled from the spec: the [ZT_Peer] record [ZT_Node_peers] reports
    for one peer ([Node::peers] is missing): every path is written into
    [paths[]] at index [pathCount], which is then incremented.  [None] when
    a path would be written past the array. *)
Definition Peer_external (addr : Z) (p : Peer) : option ZT_Peer :=
  match
    carray_fill (ZT_PeerPhysicalPath_of <$> p_paths p) 0
      (carray_new ZT_MAX_PEER_NETWORK_PATHS ZT_PeerPhysicalPath_zero)
  with
  | Some (pc, pa) =>
      Some {| peer_address := addr;
              lastUnicastFrame := p_lastUnicastFrame p;
              lastMulticastFrame := p_lastMulticastFrame p;
              versionMajor := from_option (fun v => v.1.1) (-1) (p_remoteVersion p);
              versionMinor := from_option (fun v => v.1.2) (-1) (p_remoteVersion p);
              versionRev := from_option (fun v => v.2) (-1) (p_remoteVersion p);
              latency := p_latency p;
              role := p_role p;
              pathCount := Z.of_nat pc;
              paths := pa |}
  | None => None
  end.

(** Modelled from the spec: [ZT_Node_peers] ([Node::peers] is missing):
    one record per known peer. *)
Definition ZT_Node_peers (n : Node) : option (list ZT_Peer) :=
  mapM (fun ap => Peer_external ap.1 ap.2) (map_to_list (peers n)).

(** *** Cluster *)

(** Modelled from the spec: [ZT_Node_clusterInit] ([Node::clusterInit] is
    missing); this model has cluster support built in. *)
Definition ZT_Node_clusterInit (n : Node) (myId : Z) : Node * ZT_ResultCode :=
  (Node_set_cluster n (Some {| cl_myId := myId; cl_members := ∅ |}), ZT_RESULT_OK).

(** Modelled from the spec: [ZT_Node_clusterAddMember]; without
    [clusterInit] it does nothing. *)
Definition ZT_Node_clusterAddMember (n : Node) (memberId : Z) : Node :=
  match cluster n with
  | None => n
  | Some c =>
      Node_set_cluster n
        (Some {| cl_myId := cl_myId c; cl_members := {[ memberId ]} ∪ cl_members c |})
  end.

(** Modelled from the spec: [ZT_Node_clusterRemoveMember]; nothing happens
    if the member is not present. *)
Definition ZT_Node_clusterRemoveMember (n : Node) (memberId : Z) : Node :=
  match cluster n with
  | None => n
  | Some c =>
      Node_set_cluster n
        (Some {| cl_myId := cl_myId c; cl_members := cl_members c ∖ {[ memberId ]} |})
  end.

(** Modelled from the spec: a state message for sibling [member] leaves
    through the host's send function ([Cluster::_send] is missing).  A
    cluster message is at most [ZT_CLUSTER_MAX_MESSAGE_LENGTH] bytes: a
    longer one is not sent, nor is one for an unknown member. *)
Definition Cluster_send (n : Node) (member : Z) (msg : list Z) : Node :=
  match cluster n with
  | None => n
  | Some c =>
      if bool_decide (member ∈ cl_members c)
         && (Z.of_nat (length msg) <=? ZT_CLUSTER_MAX_MESSAGE_LENGTH)
      then Node_call n (CallClusterSend member msg)
      else n
  end.

(** *** Circuit tests *)

(** Modelled from the spec: a circuit test has at most
    [ZT_CIRCUIT_TEST_MAX_HOPS] hops of at most
    [ZT_CIRCUIT_TEST_MAX_HOP_BREADTH] addresses each. *)
Definition CircuitTest_fits (t : ZT_CircuitTest) : bool :=
  (hopCount t <=? ZT_CIRCUIT_TEST_MAX_HOPS)
  && forallb (fun h => breadth h <=? ZT_CIRCUIT_TEST_MAX_HOP_BREADTH)
       (take (Z.to_nat (hopCount t)) (hops t)).

(** Modelled from the spec: the addresses of the first hop, the test's
    first recipients. *)
Definition CircuitTest_firstHop (t : ZT_CircuitTest) : list Z :=
  match take (Z.to_nat (hopCount t)) (hops t) with
  | [] => []
  | h :: _ => take (Z.to_nat (breadth h)) (addresses h)
  end.

(** Modelled from the spec: [ZT_Node_circuitTestBegin]
    ([Node::circuitTestBegin] is missing): a test within the bounds is
    registered and sent to every address of its first hop (the 40 least
    significant bits of each); any other test is refused. *)
Definition ZT_Node_circuitTestBegin (n : Node) (t : ZT_CircuitTest) : Node * ZT_ResultCode :=
  if CircuitTest_fits t then
    (foldl (fun m a => Node_call m (CallWirePacketSend (Z.land a 0xffffffffff) VERB_CIRCUIT_TEST))
       (Node_set_circuitTests n ({[ testId t ]} ∪ circuitTests n))
       (CircuitTest_firstHop t),
     ZT_RESULT_OK)
  else (n, ZT_RESULT_ERROR_BAD_PARAMETER).

(** Modelled from the spec: [ZT_Node_circuitTestEnd]: the node stops
    listening for the test's results. *)
Definition ZT_Node_circuitTestEnd (n : Node) (t : ZT_CircuitTest) : Node :=
  Node_set_circuitTests n (circuitTests n ∖ {[ testId t ]}).

(** *** Runs of the engine *)

(** Modelled from the spec: what drives the engine: the host's calls of
    the entry points and the authenticated packets that reach it. *)
Inductive Event : Type :=
  | EvJoin (nwid : Z)
  | EvLeave (nwid : Z)
  | EvMulticastSubscribe (nwid multicastGroup multicastAdi : Z)
  | EvMulticastUnsubscribe (nwid multicastGroup multicastAdi : Z)
  | EvConfig (nwid : Z) (signatureValid : bool) (c : NetworkConfig)
  | EvConfigError (nwid : Z) (e : ControllerError)
  | EvPacket (now from : Z) (localAddr remoteAddr : sockaddr_storage)
  | EvPushDirectPath (from : Z) (localAddr remoteAddr : sockaddr_storage)
  | EvBackgroundTasks (now : Z)
  | EvClusterInit (myId : Z)
  | EvClusterAddMember (memberId : Z)
  | EvClusterRemoveMember (memberId : Z)
  | EvClusterState (member : Z) (msg : list Z)
  | EvCircuitTestBegin (t : ZT_CircuitTest)
  | EvCircuitTestEnd (t : ZT_CircuitTest).

(** Modelled from the spec: the node after one event. *)
Definition Node_step (env : Env) (n : Node) (ev : Event) : Node :=
  match ev with
  | EvJoin nwid => (ZT_Node_join env n nwid).1
  | EvLeave nwid => (ZT_Node_leave env n nwid).1
  | EvMulticastSubscribe nwid g a => (ZT_Node_multicastSubscribe env n nwid g a).1
  | EvMulticastUnsubscribe nwid g a => (ZT_Node_multicastUnsubscribe env n nwid g a).1
  | EvConfig nwid ok c => Node_configReceived env n nwid ok c
  | EvConfigError nwid e => Node_configError env n nwid e
  | EvPacket now from la ra => Node_update_peer n from (Peer_received now la ra)
  | EvPushDirectPath from la ra => Node_update_peer n from (Peer_pushDirectPath la ra)
  | EvBackgroundTasks now =>
      Node_set_peers n ((fun p => Peer_set_paths p (Peer_clean now (p_paths p))) <$> peers n)
  | EvClusterInit myId => (ZT_Node_clusterInit n myId).1
  | EvClusterAddMember m => ZT_Node_clusterAddMember n m
  | EvClusterRemoveMember m => ZT_Node_clusterRemoveMember n m
  | EvClusterState m msg => Cluster_send n m msg
  | EvCircuitTestBegin t => (ZT_Node_circuitTestBegin n t).1
  | EvCircuitTestEnd t => ZT_Node_circuitTestEnd n t
  end.

(** Modelled from the spec: the node after a run of events, from [n]. *)
Definition Node_run (env : Env) (n : Node) (evs : list Event) : Node :=
  foldl (Node_step env) n evs.

(** *** Invariants of the engine's state *)

(** A path list within the capacity of [ZT_Peer.paths]. *)
Definition paths_bounded (ps : list Path) : Prop :=
  Z.of_nat (length ps) <= ZT_MAX_PEER_NETWORK_PATHS.

(** The invariant of the peer table: at most [ZT_MAX_PEER_NETWORK_PATHS]
    paths per peer. *)
Definition Node_paths_bounded (n : Node) : Prop :=
  map_Forall (fun _ p => paths_bounded (p_paths p)) (peers n).

(** A cluster message handed to the host respects the maximum message
    length; the other calls are not constrained. *)
Definition HostCall_fits (c : HostCall) : Prop :=
  match c with
  | CallClusterSend _ msg => Z.of_nat (length msg) <= ZT_CLUSTER_MAX_MESSAGE_LENGTH
  | _ => True
  end.

(** The invariant of the network table: a stored configuration respects
    the data model's bounds. *)
Definition Node_configs_fit (n : Node) : Prop :=
  map_Forall
    (fun _ nw => forall c, nw_config nw = Some c -> NetworkConfig_fits c = true)
    (networks n).

(** *** A concrete node, for examples *)

(** A host whose port configuration callback always succeeds, on node
    [0x1122334455]. *)
Definition env0 : Env :=
  {| env_address := 0x1122334455;
     env_mac := fun nwid addr => Z.land (Z.lxor nwid addr) 0xffffffffffff;
     env_portConfig := fun _ _ _ => 0;
     env_notJoined := ZT_RESULT_ERROR_NETWORK_NOT_FOUND |}.

(** A host whose port configuration callback always fails with code 5. *)
Definition env_failing : Env :=
  {| env_address := 0x1122334455;
     env_mac := fun nwid addr => Z.land (Z.lxor nwid addr) 0xffffffffffff;
     env_portConfig := fun _ _ _ => 5;
     env_notJoined := ZT_RESULT_ERROR_NETWORK_NOT_FOUND |}.

(** The network of the specification's scenario 2. *)
Definition nwid0 : Z := 0x8056c2e21c000001.

(** An IPv4 endpoint on the default port. *)
Definition endpoint (a : Z) : sockaddr_storage :=
  {| ss_family := 2; ss_addr := a; ss_port := ZT_DEFAULT_PORT |}.

(** Peer 7 is heard over five endpoints, the first of them twice. *)
Definition evs_five_paths : list Event :=
  [ EvPacket 1000 7 ZT_SOCKADDR_NULL (endpoint 1);
    EvPacket 2000 7 ZT_SOCKADDR_NULL (endpoint 2);
    EvPacket 3000 7 ZT_SOCKADDR_NULL (endpoint 3);
    EvPacket 4000 7 ZT_SOCKADDR_NULL (endpoint 4);
    EvPacket 4500 7 ZT_SOCKADDR_NULL (endpoint 1);
    EvPacket 5000 7 ZT_SOCKADDR_NULL (endpoint 5) ].

(** A configuration of [nwid0] with an MTU of [m]. *)
Definition config0 (m : Z) : NetworkConfig :=
  {| nc_nwid := nwid0; nc_revision := 1; nc_name := [];
     nc_type := ZT_NETWORK_TYPE_PRIVATE; nc_mtu := m;
     nc_dhcpHint := false; nc_bridgeAllowed := false; nc_broadcastEnabled := true;
     nc_assignedAddresses := [endpoint 10]; nc_multicastLimit := 32 |}.

(** The node joins [nwid0], is offered a configuration with an MTU of 9000
    and then one with an MTU of 1500. *)
Definition evs_configs : list Event :=
  [ EvJoin nwid0; EvConfig nwid0 true (config0 9000); EvConfig nwid0 true (config0 1500) ].

(** The node joins [nwid0] and subscribes to the ARP group of 10.0.0.1
    twice (the second time with bits set above the ADI's 32) and to one
    more group. *)
Definition evs_subscriptions : list Event :=
  [ EvJoin nwid0;
    EvMulticastSubscribe nwid0 0xffffffffffff 0x0a000001;
    EvMulticastSubscribe nwid0 0xffffffffffff 0x10a000001;
    EvMulticastSubscribe nwid0 0x0180c2000000 0 ].

(** The node joins [nwid0] and subscribes to 4097 groups, one more than
    [ZT_MAX_NETWORK_MULTICAST_SUBSCRIPTIONS]. *)
Definition evs_many_subscriptions : list Event :=
  EvJoin nwid0
  :: map (fun i => EvMulticastSubscribe nwid0 0x0180c2000000 (Z.of_nat i)) (seq 0 4097).

(** A cluster of two siblings; member 1 is sent a 3-byte message and then
    one of 1453 bytes. *)
Definition evs_cluster : list Event :=
  [ EvClusterInit 0; EvClusterAddMember 1;
    EvClusterState 1 [1; 2; 3];
    EvClusterState 1 (replicate 1453 0) ].

(** A hop that claims [b] addresses. *)
Definition hop0 (b : Z) : ZT_CircuitTestHop :=
  {| flags := 0; breadth := b; addresses := [0xaabbccddee; 0x1122334455] |}.

(** A circuit test that claims [count] hops, the first of breadth [b]. *)
Definition circuitTest0 (count b : Z) : ZT_CircuitTest :=
  {| testId := 42; timestamp := 0; credentialNetworkId := nwid0;
     hops := [hop0 b; hop0 1]; hopCount := count; reportAtEveryHop := 0 |}.

(** What the examples read of a reported peer: the path count and, of
    each slot of the array, the endpoint and the time of last receipt. *)
Definition ZT_Peer_summary (r : ZT_Peer) : Z * list (Z * Z) :=
  (pathCount r, map (fun q => (ss_addr (address q), lastReceive q)) (paths r)).

(** ** The macro and the enumeration *)

Lemma int_cast_small z : - 2 ^ 31 <= z < 2 ^ 31 -> int_cast z = z.
Proof.
  intros Hz. unfold int_cast.
  rewrite Z.mod_small by lia. lia.
Qed.

Lemma ZT_ResultCode_value_int x : int_cast (ZT_ResultCode_value x) = ZT_ResultCode_value x.
Proof. destruct x; reflexivity. Qed.

Lemma ZT_ResultCode_isFatal_spec z :
  ZT_ResultCode_isFatal z = true <-> 0 < int_cast z < 1000.
Proof.
  unfold ZT_ResultCode_isFatal.
  rewrite andb_true_iff, Z.gtb_lt, Z.ltb_lt. tauto.
Qed.

Lemma ZT_ResultCode_isNonFatalError_spec x :
  ZT_ResultCode_isNonFatalError x = true
  <-> ZT_ResultCode_value x <> 0 /\ ~ 0 < ZT_ResultCode_value x < 1000.
Proof.
  unfold ZT_ResultCode_isNonFatalError.
  rewrite andb_true_iff, !negb_true_iff, Z.eqb_neq.
  rewrite <- not_true_iff_false, ZT_ResultCode_isFatal_spec, ZT_ResultCode_value_int.
  tauto.
Qed.

Lemma ZT_ResultCode_value_inj x y :
  ZT_ResultCode_value x = ZT_ResultCode_value y -> x = y.
Proof. destruct x, y; simpl; intros H; try reflexivity; discriminate H. Qed.

(** C1, as stated, fails at the successful result: [ZT_RESULT_OK] is
    numerically below 1000 and the macro does not call it fatal. *)
Lemma ZT_RESULT_OK_below_1000_not_fatal :
  ZT_ResultCode_value ZT_RESULT_OK < 1000
  /\ ZT_ResultCode_isFatal (ZT_ResultCode_value ZT_RESULT_OK) = false.
Proof. split; [reflexivity | reflexivity]. Qed.

(** C1 (amended): for every result code [x] an entry point may return, the
    macro [ZT_ResultCode_isFatal] calls [x] fatal exactly when its value is
    strictly between 0 and 1000, and [x] is a non-fatal error exactly when
    its value is at least 1000; [ZT_RESULT_OK] (0) is neither. *)
Theorem ZT_ResultCode_fatal_by_range :
  (forall x : ZT_ResultCode,
     (ZT_ResultCode_isFatal (ZT_ResultCode_value x) = true
        <-> 0 < ZT_ResultCode_value x < 1000)
     /\ (ZT_ResultCode_isNonFatalError x = true
        <-> 1000 <= ZT_ResultCode_value x))
  /\ ZT_ResultCode_isFatal (ZT_ResultCode_value ZT_RESULT_OK) = false
  /\ ZT_ResultCode_isNonFatalError ZT_RESULT_OK = false.
Proof.
  split; [| split; reflexivity].
  intros x. split.
  - rewrite ZT_ResultCode_isFatal_spec, ZT_ResultCode_value_int. tauto.
  - rewrite ZT_ResultCode_isNonFatalError_spec. destruct x; simpl; lia.
Qed.

(** C2: the result codes take the values the header gives them, and among
    the defined codes the macro holds exactly of 1, 2 and 3. *)
Theorem ZT_ResultCode_values :
  ZT_ResultCode_value ZT_RESULT_OK = 0
  /\ ZT_ResultCode_value ZT_RESULT_FATAL_ERROR_OUT_OF_MEMORY = 1
  /\ ZT_ResultCode_value ZT_RESULT_FATAL_ERROR_DATA_STORE_FAILED = 2
  /\ ZT_ResultCode_value ZT_RESULT_FATAL_ERROR_INTERNAL = 3
  /\ ZT_ResultCode_value ZT_RESULT_ERROR_NETWORK_NOT_FOUND = 1000
  /\ ZT_ResultCode_value ZT_RESULT_ERROR_UNSUPPORTED_OPERATION = 1001
  /\ ZT_ResultCode_value ZT_RESULT_ERROR_BAD_PARAMETER = 1002
  /\ forall x : ZT_ResultCode,
       ZT_ResultCode_isFatal (ZT_ResultCode_value x) = true
       <-> (ZT_ResultCode_value x = 1 \/ ZT_ResultCode_value x = 2
            \/ ZT_ResultCode_value x = 3).
Proof.
  repeat (split; [reflexivity |]).
  intros x. rewrite ZT_ResultCode_isFatal_spec, ZT_ResultCode_value_int.
  destruct x; simpl; lia.
Qed.

(** C9: the successful result is never classified as fatal, although its
    value is below 1000: the macro also asks for a value above 0. *)
Theorem ZT_RESULT_OK_not_fatal :
  ZT_ResultCode_isFatal (ZT_ResultCode_value ZT_RESULT_OK) = false
  /\ ZT_ResultCode_value ZT_RESULT_OK < 1000
  /\ forall z : Z,
       ZT_ResultCode_isFatal z = true <-> 0 < int_cast z /\ int_cast z < 1000.
Proof.
  split; [reflexivity | split; [reflexivity |]].
  intros z. apply ZT_ResultCode_isFatal_spec.
Qed.

(** ** Arrays of a fixed capacity *)

Lemma carray_new_length {A : Type} (cap : Z) (zero : A) :
  length (carray_new cap zero) = Z.to_nat cap.
Proof. unfold carray_new. apply length_replicate. Qed.

Lemma carray_set_Some {A : Type} (a a' : list A) (i : nat) (x : A) :
  carray_set a i x = Some a' <-> (i < length a)%nat /\ a' = <[i:=x]> a.
Proof.
  unfold carray_set. case_decide; split.
  - intros [= <-]. done.
  - intros [_ ->]. done.
  - discriminate.
  - intros [? _]. lia.
Qed.

(** A fill that succeeds wrote every element, in order, from index [n] on,
    inside the array, and touched nothing else. *)
Lemma carray_fill_Some {A : Type} (xs : list A) :
  forall (n : nat) (a : list A) (m : nat) (a' : list A),
    (n <= length a)%nat ->
    carray_fill xs n a = Some (m, a') ->
    m = (n + length xs)%nat /\ (m <= length a)%nat
    /\ a' = take n a ++ xs ++ drop m a.
Proof.
  induction xs as [| x xs IH]; intros n a m a' Hn; simpl.
  - intros [= <- <-]. rewrite Nat.add_0_r. split; [done |]. split; [done |].
    simpl. by rewrite take_drop.
  - destruct (carray_set a n x) as [a1 |] eqn:Hset; [| discriminate].
    apply carray_set_Some in Hset as [Hlt ->].
    intros Hfill. apply IH in Hfill as (-> & Hm & ->);
      [| rewrite length_insert; lia].
    rewrite length_insert in Hm.
    split; [lia |]. split; [done |].
    rewrite (take_S_r _ _ x) by (by apply list_lookup_insert_eq).
    rewrite take_insert_ge by lia.
    rewrite drop_insert_lt by lia.
    rewrite <- app_assoc. simpl.
    by replace (S n + length xs)%nat with (n + S (length xs))%nat by lia.
Qed.

(** A fill that stays inside the array succeeds. *)
Lemma carray_fill_fits {A : Type} (xs : list A) :
  forall (n : nat) (a : list A),
    (n + length xs <= length a)%nat -> is_Some (carray_fill xs n a).
Proof.
  induction xs as [| x xs IH]; intros n a Hfit; simpl in *.
  - by eexists.
  - unfold carray_set. rewrite decide_True by lia.
    apply IH. rewrite length_insert. lia.
Qed.

(** A fill of a fresh array: the count is the number of elements, it is
    within the capacity, the array keeps its capacity and starts with the
    elements. *)
Lemma carray_fill_new {A : Type} (xs : list A) (cap : Z) (zero : A) (m : nat) (a' : list A) :
  carray_fill xs 0 (carray_new cap zero) = Some (m, a') ->
  m = length xs /\ (m <= Z.to_nat cap)%nat /\ length a' = Z.to_nat cap
  /\ take m a' = xs.
Proof.
  intros Hfill. apply carray_fill_Some in Hfill as (-> & Hm & ->); [| lia].
  rewrite carray_new_length in Hm. simpl in *.
  split; [done |]. split; [done |]. split.
  - rewrite length_app, length_drop, carray_new_length. lia.
  - by rewrite take_app_length.
Qed.

(** A bounded fill of a fresh array always succeeds: the count is the
    number of elements or the capacity, whichever is smaller, the array
    keeps its capacity and starts with that many of the elements. *)
Lemma carray_fill_bounded_new {A : Type} (xs : list A) (cap : Z) (zero : A) :
  exists (m : nat) (a' : list A),
    carray_fill_bounded xs (carray_new cap zero) = Some (m, a')
    /\ m = Nat.min (length xs) (Z.to_nat cap)
    /\ length a' = Z.to_nat cap
    /\ take m a' = take (Z.to_nat cap) xs.
Proof.
  unfold carray_fill_bounded. rewrite carray_new_length.
  destruct (carray_fill_fits (take (Z.to_nat cap) xs) 0 (carray_new cap zero))
    as [[m a'] Hfill].
  { rewrite length_take, carray_new_length. lia. }
  exists m, a'. split; [exact Hfill |].
  apply carray_fill_new in Hfill as (-> & _ & Hlen & Htake).
  rewrite length_take. split; [lia |]. split; [exact Hlen |].
  rewrite length_take in Htake. exact Htake.
Qed.

(** ** Peers and paths *)

Ltac unfold_entry_points :=
  unfold ZT_Node_join, ZT_Node_leave, ZT_Node_multicastSubscribe,
    ZT_Node_multicastUnsubscribe, Node_configReceived, Node_configError,
    ZT_Node_clusterInit, ZT_Node_clusterAddMember, ZT_Node_clusterRemoveMember,
    Cluster_send, ZT_Node_circuitTestEnd, Node_update_peer, Node_portConfig.

Lemma Node_calls_frame (n : Node) (cs : list HostCall) :
  let n' := foldl Node_call n cs in
  networks n' = networks n /\ peers n' = peers n /\ cluster n' = cluster n
  /\ circuitTests n' = circuitTests n /\ calls n' = calls n ++ cs.
Proof.
  revert n. induction cs as [| c cs IH]; intros n; simpl.
  - by rewrite app_nil_r.
  - destruct (IH (Node_call n c)) as (-> & -> & -> & -> & ->). simpl.
    by rewrite <- app_assoc.
Qed.

Lemma circuitTestBegin_sends (n : Node) (t : ZT_CircuitTest) :
  exists n0 cs,
    (ZT_Node_circuitTestBegin n t).1 = foldl Node_call n0 cs
    /\ networks n0 = networks n /\ peers n0 = peers n /\ cluster n0 = cluster n
    /\ calls n0 = calls n
    /\ Forall (fun c => exists dest, c = CallWirePacketSend dest VERB_CIRCUIT_TEST) cs.
Proof.
  unfold ZT_Node_circuitTestBegin. destruct (CircuitTest_fits t); simpl.
  - exists (Node_set_circuitTests n ({[ testId t ]} ∪ circuitTests n)).
    exists ((fun a => CallWirePacketSend (Z.land a 0xffffffffff) VERB_CIRCUIT_TEST)
              <$> CircuitTest_firstHop t).
    split.
    + generalize (Node_set_circuitTests n ({[testId t]} ∪ circuitTests n)) as m.
      induction (CircuitTest_firstHop t) as [| a l IH]; intros m; simpl; [done |].
      apply IH.
    + repeat (split; [done |]).
      apply Forall_fmap, Forall_true. intros a. simpl. by eexists.
  - exists n, []. simpl. repeat (split; [done |]). constructor.
Qed.

Lemma Peer_addPath_bounded (p : Path) (ps : list Path) :
  paths_bounded ps -> paths_bounded (Peer_addPath p ps).
Proof.
  unfold paths_bounded, Peer_addPath. intros Hps.
  destruct (Z.ltb_spec (Z.of_nat (length ps)) ZT_MAX_PEER_NETWORK_PATHS) as [Hlt | Hge].
  - rewrite length_app. simpl. lia.
  - by rewrite length_insert.
Qed.

Lemma Peer_received_bounded now la ra (ps : list Path) :
  paths_bounded ps -> paths_bounded (Peer_received now la ra ps).
Proof.
  unfold Peer_received. intros Hps.
  destruct (existsb (Path_same la ra) ps).
  - unfold paths_bounded. by rewrite length_fmap.
  - by apply Peer_addPath_bounded.
Qed.

Lemma Peer_pushDirectPath_bounded la ra (ps : list Path) :
  paths_bounded ps -> paths_bounded (Peer_pushDirectPath la ra ps).
Proof.
  unfold Peer_pushDirectPath. intros Hps.
  destruct (existsb (Path_same la ra) ps); [done |].
  by apply Peer_addPath_bounded.
Qed.

Lemma Peer_clean_bounded now (ps : list Path) :
  paths_bounded ps -> paths_bounded (Peer_clean now ps).
Proof.
  unfold paths_bounded, Peer_clean. intros Hps.
  pose proof (length_filter (fun p => Path_alive now p = true) ps). lia.
Qed.

Lemma Node_update_peer_bounded (n : Node) (addr : Z) (f : list Path -> list Path) :
  (forall ps, paths_bounded ps -> paths_bounded (f ps)) ->
  Node_paths_bounded n -> Node_paths_bounded (Node_update_peer n addr f).
Proof.
  intros Hf Hn. unfold Node_paths_bounded, Node_update_peer. simpl.
  apply map_Forall_insert_2; [| done]. simpl. apply Hf.
  destruct (peers n !! addr) as [p |] eqn:Hp; simpl.
  - by apply (Hn addr).
  - unfold paths_bounded. simpl. unfold ZT_MAX_PEER_NETWORK_PATHS. lia.
Qed.

Lemma Node_step_peers_frame (env : Env) (n : Node) (ev : Event) :
  match ev with
  | EvPacket _ _ _ _ | EvPushDirectPath _ _ _ | EvBackgroundTasks _ => True
  | _ => peers (Node_step env n ev) = peers n
  end.
Proof.
  destruct ev; try done; simpl; unfold_entry_points;
    repeat case_match; simpl; try done.
  destruct (circuitTestBegin_sends n t) as (n0 & cs & -> & _ & <- & _).
  apply (Node_calls_frame n0 cs).
Qed.

Lemma Node_step_paths_bounded (env : Env) (n : Node) (ev : Event) :
  Node_paths_bounded n -> Node_paths_bounded (Node_step env n ev).
Proof.
  intros Hn. pose proof (Node_step_peers_frame env n ev) as Hframe.
  destruct ev; try (unfold Node_paths_bounded; by rewrite Hframe); simpl.
  - apply Node_update_peer_bounded; [| done]. apply Peer_received_bounded.
  - apply Node_update_peer_bounded; [| done]. apply Peer_pushDirectPath_bounded.
  - unfold Node_paths_bounded. simpl. apply map_Forall_fmap.
    intros a p Hp. simpl. apply Peer_clean_bounded. by apply (Hn a).
Qed.

Lemma Node_run_paths_bounded (env : Env) (evs : list Event) :
  forall n, Node_paths_bounded n -> Node_paths_bounded (Node_run env n evs).
Proof.
  unfold Node_run. induction evs as [| ev evs IH]; intros n Hn; simpl; [done |].
  apply IH. by apply Node_step_paths_bounded.
Qed.

Lemma Node_new_paths_bounded : Node_paths_bounded Node_new.
Proof. unfold Node_paths_bounded, Node_new. simpl. apply map_Forall_empty. Qed.

Lemma Peer_external_Some (addr : Z) (p : Peer) (r : ZT_Peer) :
  Peer_external addr p = Some r ->
  pathCount r = Z.of_nat (length (p_paths p))
  /\ 0 <= pathCount r <= ZT_MAX_PEER_NETWORK_PATHS
  /\ Z.of_nat (length (paths r)) = ZT_MAX_PEER_NETWORK_PATHS
  /\ take (Z.to_nat (pathCount r)) (paths r) = ZT_PeerPhysicalPath_of <$> p_paths p.
Proof.
  unfold Peer_external.
  destruct (carray_fill _ _ _) as [[pc pa] |] eqn:Hfill; [| discriminate].
  intros [= <-]. simpl.
  apply carray_fill_new in Hfill as (Hpc & Hcap & Hlen & Htake).
  rewrite length_fmap in Hpc. subst pc.
  rewrite Nat2Z.id, Hlen. unfold ZT_MAX_PEER_NETWORK_PATHS in *.
  repeat split; try lia. done.
Qed.

Lemma Peer_external_fits (addr : Z) (p : Peer) :
  paths_bounded (p_paths p) -> is_Some (Peer_external addr p).
Proof.
  unfold paths_bounded, Peer_external. intros Hp.
  destruct (carray_fill_fits (ZT_PeerPhysicalPath_of <$> p_paths p) 0
              (carray_new ZT_MAX_PEER_NETWORK_PATHS ZT_PeerPhysicalPath_zero))
    as [[pc pa] ->]; [| by eexists].
  rewrite length_fmap, carray_new_length. lia.
Qed.

(** C3: a peer never has more than [ZT_MAX_PEER_NETWORK_PATHS] = 4 paths:
    after every run of the engine each peer holds at most 4 paths, and
    [ZT_Node_peers] reports every peer with [pathCount ≤ 4], its paths in
    the first [pathCount] slots of an array of that capacity. *)
Theorem ZT_Peer_pathCount_bounded (env : Env) (evs : list Event) :
  ZT_MAX_PEER_NETWORK_PATHS = 4
  /\ map_Forall (fun _ p => Z.of_nat (length (p_paths p)) <= 4)
       (peers (Node_run env Node_new evs))
  /\ exists pl : list ZT_Peer,
       ZT_Node_peers (Node_run env Node_new evs) = Some pl
       /\ length pl = size (peers (Node_run env Node_new evs))
       /\ Forall (fun r => 0 <= pathCount r <= 4
                           /\ Z.of_nat (length (paths r)) = ZT_MAX_PEER_NETWORK_PATHS)
            pl.
Proof.
  split; [done |].
  pose proof (Node_run_paths_bounded env evs _ Node_new_paths_bounded) as Hinv.
  split; [exact Hinv |].
  destruct (mapM_is_Some_2 (fun ap => Peer_external ap.1 ap.2)
              (map_to_list (peers (Node_run env Node_new evs)))) as [pl Hpl].
  { apply Forall_forall. intros [a p] Hap. simpl.
    apply Peer_external_fits. apply elem_of_map_to_list in Hap. by apply (Hinv a). }
  exists pl. split; [exact Hpl |].
  apply mapM_Some_1 in Hpl. split.
  - rewrite <- (Forall2_length _ _ _ Hpl). apply length_map_to_list.
  - clear Hinv. induction Hpl as [| [a p] r l k Hr _ IH]; constructor; [| done].
    apply Peer_external_Some in Hr as (_ & Hcount & Hlen & _).
    split; [exact Hcount | exact Hlen].
Qed.

(** ** Joining a network *)

Lemma Node_portConfig_member (env : Env) (n : Node) (nwid nwid' : Z)
    (op : ZT_VirtualNetworkConfigOperation) :
  is_Some (networks (Node_portConfig env n nwid op) !! nwid')
  <-> is_Some (networks n !! nwid').
Proof.
  unfold Node_portConfig. case_match; simpl; [done |].
  rewrite lookup_alter. case_decide; [| done].
  subst nwid'. apply fmap_is_Some.
Qed.

Lemma ZT_Node_join_member (env : Env) (n : Node) (nwid : Z) :
  is_Some (networks (ZT_Node_join env n nwid).1 !! nwid).
Proof.
  unfold ZT_Node_join. destruct (networks n !! nwid) as [nw |] eqn:Hnw; simpl.
  - by rewrite Hnw.
  - apply Node_portConfig_member. simpl. rewrite lookup_insert_eq. by eexists.
Qed.

Lemma ZT_Node_join_already (env : Env) (n : Node) (nwid : Z) :
  is_Some (networks n !! nwid) -> ZT_Node_join env n nwid = (n, ZT_RESULT_OK).
Proof. intros [nw Hnw]. unfold ZT_Node_join. by rewrite Hnw. Qed.

(** C4: [ZT_Node_join] is idempotent.  Joining a network the node is
    already a member of changes nothing (the networks, and the record of
    calls to the host, stay as they are) and returns [ZT_RESULT_OK]; so a
    second join of the same network right after the first changes nothing
    either. *)
Theorem ZT_Node_join_idempotent (env : Env) (n : Node) (nwid : Z) :
  (is_Some (networks n !! nwid) -> ZT_Node_join env n nwid = (n, ZT_RESULT_OK))
  /\ ZT_Node_join env (ZT_Node_join env n nwid).1 nwid
     = ((ZT_Node_join env n nwid).1, ZT_RESULT_OK)
  /\ (ZT_Node_join env n nwid).2 = ZT_RESULT_OK.
Proof.
  split; [apply ZT_Node_join_already |]. split.
  - apply ZT_Node_join_already, ZT_Node_join_member.
  - unfold ZT_Node_join. by destruct (networks n !! nwid).
Qed.

(** ** Multicast subscriptions *)

Lemma filter_eq_absent `{EqDecision A} (x : A) (l : list A) :
  x ∉ l -> filter (fun y => y = x) l = [].
Proof.
  induction l as [| y l IH]; intros Hx; [done |].
  rewrite not_elem_of_cons in Hx. destruct Hx as [Hne Hx].
  rewrite filter_cons_False by congruence. by apply IH.
Qed.

(** An element of a duplicate-free list occurs in it exactly once. *)
Lemma filter_eq_NoDup `{EqDecision A} (x : A) (l : list A) :
  NoDup l -> x ∈ l -> length (filter (fun y => y = x) l) = 1%nat.
Proof.
  induction 1 as [| y l Hy Hl IH]; intros Hx.
  - by apply elem_of_nil in Hx.
  - destruct (decide (y = x)) as [-> | Hne].
    + rewrite filter_cons_True by done. simpl. by rewrite filter_eq_absent.
    + rewrite filter_cons_False by done. apply IH.
      apply elem_of_cons in Hx as [-> | Hx]; [done | exact Hx].
Qed.

#[global] Instance ZT_MulticastGroup_of_pair_inj : Inj (=) (=) ZT_MulticastGroup_of_pair.
Proof. intros [m1 a1] [m2 a2] [= -> ->]. done. Qed.

(** The report of a network exists whatever the network holds. *)
Lemma Network_externalConfig_total (nwid : Z) (nw : Network) :
  is_Some (Network_externalConfig nwid nw).
Proof.
  unfold Network_externalConfig.
  destruct (carray_fill_bounded_new
              (ZT_MulticastGroup_of_pair <$> elements (nw_multicastSubs nw))
              ZT_MAX_NETWORK_MULTICAST_SUBSCRIPTIONS ZT_MulticastGroup_zero)
    as (mc & ms & -> & _).
  destruct (carray_fill_bounded_new (from_option nc_assignedAddresses [] (nw_config nw))
              ZT_MAX_ZT_ASSIGNED_ADDRESSES ZT_SOCKADDR_NULL)
    as (ac & aa & -> & _).
  by eexists.
Qed.

Lemma Network_externalConfig_Some (nwid : Z) (nw : Network) (cfg : ZT_VirtualNetworkConfig) :
  Network_externalConfig nwid nw = Some cfg ->
  multicastSubscriptionCount cfg
  = Z.min (Z.of_nat (size (nw_multicastSubs nw))) ZT_MAX_NETWORK_MULTICAST_SUBSCRIPTIONS
  /\ 0 <= multicastSubscriptionCount cfg <= ZT_MAX_NETWORK_MULTICAST_SUBSCRIPTIONS
  /\ Z.of_nat (length (multicastSubscriptions cfg)) = ZT_MAX_NETWORK_MULTICAST_SUBSCRIPTIONS
  /\ take (Z.to_nat (multicastSubscriptionCount cfg)) (multicastSubscriptions cfg)
     = ZT_MulticastGroup_of_pair
         <$> take (Z.to_nat ZT_MAX_NETWORK_MULTICAST_SUBSCRIPTIONS)
               (elements (nw_multicastSubs nw))
  /\ mtu cfg = from_option nc_mtu ZT_MAX_MTU (nw_config nw).
Proof.
  unfold Network_externalConfig.
  destruct (carray_fill_bounded_new
              (ZT_MulticastGroup_of_pair <$> elements (nw_multicastSubs nw))
              ZT_MAX_NETWORK_MULTICAST_SUBSCRIPTIONS ZT_MulticastGroup_zero)
    as (mc & ms & -> & Hmc & Hlen & Htake).
  destruct (carray_fill_bounded_new (from_option nc_assignedAddresses [] (nw_config nw))
              ZT_MAX_ZT_ASSIGNED_ADDRESSES ZT_SOCKADDR_NULL)
    as (ac & aa & -> & _).
  intros [= <-]. simpl.
  rewrite length_fmap in Hmc.
  change (length (elements (nw_multicastSubs nw))) with (size (nw_multicastSubs nw)) in Hmc.
  rewrite Nat2Z.id, Hlen, Htake, fmap_take.
  unfold ZT_MAX_NETWORK_MULTICAST_SUBSCRIPTIONS in *.
  repeat split; try done; lia.
Qed.

Lemma ZT_Node_multicastSubscribe_twice (env : Env) (n : Node) (nwid g a : Z) :
  ZT_Node_multicastSubscribe env (ZT_Node_multicastSubscribe env n nwid g a).1 nwid g a
  = ZT_Node_multicastSubscribe env n nwid g a.
Proof.
  unfold ZT_Node_multicastSubscribe.
  destruct (networks n !! nwid) as [nw |] eqn:Hnw; simpl.
  - rewrite lookup_insert_eq. simpl. rewrite insert_insert_eq.
    unfold Network_set_multicastSubs at 1. simpl.
    by rewrite (assoc_L (∪)), (idemp_L (∪)).
  - by rewrite Hnw.
Qed.

(** C5, as stated, fails for a network the node has not joined: on a new
    node two subscriptions to the same group on [nwid0] leave the node
    without any network, hence without a subscription, and the host [env0]
    is answered [ZT_RESULT_ERROR_NETWORK_NOT_FOUND]. *)
Lemma ZT_Node_multicastSubscribe_not_joined :
  ZT_Node_multicastSubscribe env0
    (ZT_Node_multicastSubscribe env0 Node_new nwid0 0xffffffffffff 0x0a000001).1
    nwid0 0xffffffffffff 0x0a000001
  = (Node_new, ZT_RESULT_ERROR_NETWORK_NOT_FOUND)
  /\ networks
       (ZT_Node_multicastSubscribe env0
          (ZT_Node_multicastSubscribe env0 Node_new nwid0 0xffffffffffff 0x0a000001).1
          nwid0 0xffffffffffff 0x0a000001).1 !! nwid0
     = None
  /\ ZT_Node_networkConfig
       (ZT_Node_multicastSubscribe env0
          (ZT_Node_multicastSubscribe env0 Node_new nwid0 0xffffffffffff 0x0a000001).1
          nwid0 0xffffffffffff 0x0a000001).1 nwid0
     = None.
Proof. repeat split. Qed.

(** C5 (amended): [ZT_Node_multicastSubscribe] is idempotent.  For every
    node, network ID, group and ADI, a second subscription to the same
    (group, ADI) on the same network leaves the node as the first one left
    it and returns what the first returned; on a network the node has
    joined both calls return [ZT_RESULT_OK] and the group is in the
    network's subscription set, exactly once. *)
Theorem ZT_Node_multicastSubscribe_idempotent (env : Env) (n : Node) (nwid g a : Z) :
  ZT_Node_multicastSubscribe env (ZT_Node_multicastSubscribe env n nwid g a).1 nwid g a
  = ZT_Node_multicastSubscribe env n nwid g a
  /\ forall nw : Network,
       networks n !! nwid = Some nw ->
       (ZT_Node_multicastSubscribe env n nwid g a).2 = ZT_RESULT_OK
       /\ (ZT_Node_multicastSubscribe env
             (ZT_Node_multicastSubscribe env n nwid g a).1 nwid g a).2 = ZT_RESULT_OK
       /\ exists nw' : Network,
            networks (ZT_Node_multicastSubscribe env
                        (ZT_Node_multicastSubscribe env n nwid g a).1 nwid g a).1 !! nwid
            = Some nw'
            /\ nw_multicastSubs nw' = {[ MulticastGroup_of g a ]} ∪ nw_multicastSubs nw
            /\ length (filter (fun x => x = MulticastGroup_of g a)
                         (elements (nw_multicastSubs nw'))) = 1%nat.
Proof.
  split; [apply ZT_Node_multicastSubscribe_twice |].
  intros nw Hnw. rewrite ZT_Node_multicastSubscribe_twice.
  unfold ZT_Node_multicastSubscribe. rewrite Hnw. simpl.
  split; [done |]. split; [done |].
  eexists. split; [apply lookup_insert_eq |]. simpl. split; [done |].
  apply filter_eq_NoDup; [apply NoDup_elements |].
  apply elem_of_elements, elem_of_union_l, elem_of_singleton. reflexivity.
Qed.

(** ** Cluster messages *)

Lemma Node_step_calls (env : Env) (n : Node) (ev : Event) :
  exists cs : list HostCall,
    calls (Node_step env n ev) = calls n ++ cs /\ Forall HostCall_fits cs.
Proof.
  destruct ev; simpl;
    try (unfold_entry_points; repeat case_match; simpl; rewrite <- ?app_assoc;
         first [ by (exists []; rewrite app_nil_r; split; [done | constructor])
               | by (eexists; split; [reflexivity | repeat constructor]) ]).
  - unfold Cluster_send. destruct (cluster n) as [c |];
      [| exists []; rewrite app_nil_r; split; [done | constructor]].
    destruct (bool_decide (member ∈ cl_members c)
              && (Z.of_nat (length msg) <=? ZT_CLUSTER_MAX_MESSAGE_LENGTH)) eqn:Hok; simpl.
    + apply andb_true_iff in Hok as [_ Hlen%Z.leb_le].
      eexists. split; [reflexivity |]. by repeat constructor.
    + exists []. rewrite app_nil_r. split; [done | constructor].
  - destruct (circuitTestBegin_sends n t) as (n0 & cs & -> & _ & _ & _ & <- & Hcs).
    exists cs. split; [apply (Node_calls_frame n0 cs) |].
    eapply Forall_impl; [exact Hcs |]. intros c [dest ->]. exact I.
Qed.

Lemma Node_run_calls (env : Env) (evs : list Event) :
  forall n, Forall HostCall_fits (calls n) ->
            Forall HostCall_fits (calls (Node_run env n evs)).
Proof.
  unfold Node_run. induction evs as [| ev evs IH]; intros n Hn; simpl; [done |].
  apply IH. destruct (Node_step_calls env n ev) as (cs & -> & Hcs).
  by apply Forall_app.
Qed.

(** Within the bound, a state message for a known member does reach the
    host's send function. *)
Lemma Cluster_send_sent (n : Node) (c : Cluster) (member : Z) (msg : list Z) :
  cluster n = Some c -> member ∈ cl_members c ->
  Z.of_nat (length msg) <= ZT_CLUSTER_MAX_MESSAGE_LENGTH ->
  calls (Cluster_send n member msg) = calls n ++ [CallClusterSend member msg].
Proof.
  intros Hc Hm Hlen. unfold Cluster_send. rewrite Hc.
  rewrite bool_decide_eq_true_2 by done.
  apply Z.leb_le in Hlen. by rewrite Hlen.
Qed.

(** C6: a cluster message is at most [ZT_CLUSTER_MAX_MESSAGE_LENGTH] = 1452
    bytes: after every run of the engine, every message that was passed to
    the cluster send function has at most that length. *)
Theorem ZT_CLUSTER_MAX_MESSAGE_LENGTH_respected (env : Env) (evs : list Event) :
  ZT_CLUSTER_MAX_MESSAGE_LENGTH = 1452
  /\ forall (member : Z) (msg : list Z),
       CallClusterSend member msg ∈ calls (Node_run env Node_new evs) ->
       Z.of_nat (length msg) <= ZT_CLUSTER_MAX_MESSAGE_LENGTH.
Proof.
  split; [reflexivity |].
  intros member msg Hin.
  pose proof (Node_run_calls env evs Node_new (Forall_nil_2 _)) as Hall.
  rewrite Forall_forall in Hall. exact (Hall _ Hin).
Qed.

(** ** Circuit tests *)

Lemma CircuitTest_fits_spec (t : ZT_CircuitTest) :
  CircuitTest_fits t = true
  <-> hopCount t <= ZT_CIRCUIT_TEST_MAX_HOPS
      /\ forall (i : nat) (h : ZT_CircuitTestHop),
           Z.of_nat i < hopCount t -> hops t !! i = Some h ->
           breadth h <= ZT_CIRCUIT_TEST_MAX_HOP_BREADTH.
Proof.
  unfold CircuitTest_fits.
  rewrite andb_true_iff, Z.leb_le, <- Is_true_true, forallb_True, Forall_lookup.
  split; intros [Hhops Hbreadth]; (split; [exact Hhops |]).
  - intros i h Hi Hh. apply Z.leb_le, Is_true_true, (Hbreadth i).
    apply lookup_take_Some. split; [exact Hh | lia].
  - intros i h [Hh Hi]%lookup_take_Some. apply Is_true_true, Z.leb_le.
    apply (Hbreadth i); [lia | exact Hh].
Qed.

Lemma ZT_Node_circuitTestBegin_accepts (n : Node) (t : ZT_CircuitTest) :
  (ZT_Node_circuitTestBegin n t).2 = ZT_RESULT_OK <-> CircuitTest_fits t = true.
Proof.
  unfold ZT_Node_circuitTestBegin. destruct (CircuitTest_fits t); simpl; split;
    intros H; try done.
Qed.

(** C7: a circuit test has at most [ZT_CIRCUIT_TEST_MAX_HOPS] = 512 hops of
    at most [ZT_CIRCUIT_TEST_MAX_HOP_BREADTH] = 256 addresses each: these
    are the tests [ZT_Node_circuitTestBegin] accepts. *)
Theorem ZT_CircuitTest_bounds (n : Node) (t : ZT_CircuitTest) :
  ZT_CIRCUIT_TEST_MAX_HOPS = 512
  /\ ZT_CIRCUIT_TEST_MAX_HOP_BREADTH = 256
  /\ ((ZT_Node_circuitTestBegin n t).2 = ZT_RESULT_OK
      <-> hopCount t <= 512
          /\ forall (i : nat) (h : ZT_CircuitTestHop),
               Z.of_nat i < hopCount t -> hops t !! i = Some h -> breadth h <= 256).
Proof.
  split; [reflexivity |]. split; [reflexivity |].
  rewrite ZT_Node_circuitTestBegin_accepts. apply CircuitTest_fits_spec.
Qed.

(** ** Reported network configurations *)

Lemma Node_portConfig_configs_fit (env : Env) (n : Node) (nwid : Z)
    (op : ZT_VirtualNetworkConfigOperation) :
  Node_configs_fit n -> Node_configs_fit (Node_portConfig env n nwid op).
Proof.
  unfold Node_configs_fit, Node_portConfig. intros Hn.
  case_match; simpl; [exact Hn |].
  intros i nw. rewrite lookup_alter. case_decide; [| apply Hn].
  intros (nw0 & Hnw0 & ->)%fmap_Some. simpl. by apply (Hn _ _ Hnw0).
Qed.

Lemma Node_insert_configs_fit (n : Node) (nwid : Z) (nw : Network) :
  (forall c, nw_config nw = Some c -> NetworkConfig_fits c = true) ->
  Node_configs_fit n ->
  Node_configs_fit (Node_set_networks n (<[nwid := nw]> (networks n))).
Proof.
  unfold Node_configs_fit. simpl. intros Hnw Hn. by apply map_Forall_insert_2.
Qed.

Lemma Node_step_networks_frame (env : Env) (n : Node) (ev : Event) :
  match ev with
  | EvPacket _ _ _ _ | EvPushDirectPath _ _ _ | EvBackgroundTasks _
  | EvClusterInit _ | EvClusterAddMember _ | EvClusterRemoveMember _
  | EvClusterState _ _ | EvCircuitTestBegin _ | EvCircuitTestEnd _ =>
      networks (Node_step env n ev) = networks n
  | _ => True
  end.
Proof.
  destruct ev; try done; simpl; unfold_entry_points;
    repeat case_match; simpl; try done.
  destruct (circuitTestBegin_sends n t) as (n0 & cs & -> & <- & _).
  apply (Node_calls_frame n0 cs).
Qed.

Lemma Node_step_configs_fit (env : Env) (n : Node) (ev : Event) :
  Node_configs_fit n -> Node_configs_fit (Node_step env n ev).
Proof.
  intros Hn. pose proof (Node_step_networks_frame env n ev) as Hframe.
  destruct ev; try (unfold Node_configs_fit; by rewrite Hframe); simpl.
  - (* join *)
    unfold ZT_Node_join. destruct (networks n !! nwid) eqn:Hnw; simpl; [done |].
    apply (Node_portConfig_configs_fit env _ nwid ZT_VIRTUAL_NETWORK_CONFIG_OPERATION_UP).
    by apply Node_insert_configs_fit.
  - (* leave *)
    unfold ZT_Node_leave. destruct (networks n !! nwid) eqn:Hnw; simpl; [| done].
    unfold Node_configs_fit. simpl. by apply map_Forall_delete.
  - (* multicastSubscribe *)
    unfold ZT_Node_multicastSubscribe.
    destruct (networks n !! nwid) as [nw |] eqn:Hnw; simpl; [| done].
    apply Node_insert_configs_fit; [| done]. simpl. by apply (Hn nwid).
  - (* multicastUnsubscribe *)
    unfold ZT_Node_multicastUnsubscribe.
    destruct (networks n !! nwid) as [nw |] eqn:Hnw; simpl; [| done].
    apply Node_insert_configs_fit; [| done]. simpl. by apply (Hn nwid).
  - (* config receipt *)
    unfold Node_configReceived.
    destruct (networks n !! nwid) as [nw |] eqn:Hnw; [| done].
    destruct (signatureValid && (nc_nwid c =? nwid) && NetworkConfig_fits c
              && (Network_revision nw <=? nc_revision c)) eqn:Hok; [| done].
    apply Node_portConfig_configs_fit, Node_insert_configs_fit; [| done].
    simpl. intros c' [= <-].
    by apply andb_true_iff in Hok as [[[_ _]%andb_true_iff Hfits]%andb_true_iff _].
  - (* controller error *)
    unfold Node_configError.
    destruct (networks n !! nwid) as [nw |] eqn:Hnw; [| done].
    apply Node_portConfig_configs_fit, Node_insert_configs_fit; [| done].
    simpl. by apply (Hn nwid).
Qed.

Lemma Node_run_configs_fit (env : Env) (evs : list Event) :
  forall n, Node_configs_fit n -> Node_configs_fit (Node_run env n evs).
Proof.
  unfold Node_run. induction evs as [| ev evs IH]; intros n Hn; simpl; [done |].
  apply IH. by apply Node_step_configs_fit.
Qed.

Lemma Node_new_configs_fit : Node_configs_fit Node_new.
Proof. unfold Node_configs_fit, Node_new. simpl. apply map_Forall_empty. Qed.

Lemma NetworkConfig_fits_spec (c : NetworkConfig) :
  NetworkConfig_fits c = true
  <-> 0 <= nc_mtu c <= ZT_MAX_MTU
      /\ Z.of_nat (length (nc_assignedAddresses c)) <= ZT_MAX_ZT_ASSIGNED_ADDRESSES.
Proof.
  unfold NetworkConfig_fits. rewrite !andb_true_iff, !Z.leb_le. tauto.
Qed.

Lemma ZT_Node_networkConfig_Some (n : Node) (nwid : Z) (cfg : ZT_VirtualNetworkConfig) :
  ZT_Node_networkConfig n nwid = Some cfg
  <-> exists nw, networks n !! nwid = Some nw /\ Network_externalConfig nwid nw = Some cfg.
Proof.
  unfold ZT_Node_networkConfig. destruct (networks n !! nwid) as [nw |]; split.
  - intros H. by exists nw.
  - by intros (nw' & [= <-] & H).
  - discriminate.
  - by intros (nw' & [=] & _).
Qed.

(** C8: [ZT_DEFAULT_PORT] is 9993 and [ZT_MAX_MTU] is 2800, and after every
    run of the engine the MTU of every [ZT_VirtualNetworkConfig] that
    [ZT_Node_networkConfig] reports is at most [ZT_MAX_MTU]. *)
Theorem ZT_MAX_MTU_respected (env : Env) (evs : list Event) :
  ZT_DEFAULT_PORT = 9993
  /\ ZT_MAX_MTU = 2800
  /\ forall (nwid : Z) (cfg : ZT_VirtualNetworkConfig),
       ZT_Node_networkConfig (Node_run env Node_new evs) nwid = Some cfg ->
       0 <= mtu cfg <= ZT_MAX_MTU.
Proof.
  split; [reflexivity |]. split; [reflexivity |].
  intros nwid cfg (nw & Hnw & Hcfg)%ZT_Node_networkConfig_Some.
  apply Network_externalConfig_Some in Hcfg as (_ & _ & _ & _ & ->).
  pose proof (Node_run_configs_fit env evs _ Node_new_configs_fit nwid nw Hnw) as Hfit.
  simpl in Hfit. destruct (nw_config nw) as [c |]; simpl.
  - by apply NetworkConfig_fits_spec, Hfit.
  - unfold ZT_MAX_MTU. lia.
Qed.



(** ** The engine on concrete runs *)

(** Scenario 2 of the specification: joining [0x8056c2e21c000001] fires
    the port configuration callback with [UP] and sends a
    NETWORK_CONFIG_REQUEST to [0x8056c2e21c]; a second join adds nothing. *)
Example join_scenario :
  calls (Node_run env0 Node_new [EvJoin nwid0; EvJoin nwid0])
  = [ CallVirtualNetworkConfig nwid0 ZT_VIRTUAL_NETWORK_CONFIG_OPERATION_UP;
      CallWirePacketSend 0x8056c2e21c VERB_NETWORK_CONFIG_REQUEST ]
  /\ vnc_status <$> ZT_Node_networkConfig (Node_run env0 Node_new [EvJoin nwid0]) nwid0
     = Some ZT_NETWORK_STATUS_REQUESTING_CONFIGURATION
  /\ (vnc_status <$> ZT_Node_networkConfig (Node_run env_failing Node_new [EvJoin nwid0]) nwid0,
      portError <$> ZT_Node_networkConfig (Node_run env_failing Node_new [EvJoin nwid0]) nwid0)
     = (Some ZT_NETWORK_STATUS_PORT_ERROR, Some 5).
Proof. vm_compute. repeat split. Qed.

(** Leaving fires [DOWN] then [DESTROY] and removes the network. *)
Example leave_scenario :
  calls (Node_run env0 Node_new [EvJoin nwid0; EvLeave nwid0])
  = [ CallVirtualNetworkConfig nwid0 ZT_VIRTUAL_NETWORK_CONFIG_OPERATION_UP;
      CallWirePacketSend 0x8056c2e21c VERB_NETWORK_CONFIG_REQUEST;
      CallVirtualNetworkConfig nwid0 ZT_VIRTUAL_NETWORK_CONFIG_OPERATION_DOWN;
      CallVirtualNetworkConfig nwid0 ZT_VIRTUAL_NETWORK_CONFIG_OPERATION_DESTROY ]
  /\ ZT_Node_networkConfig (Node_run env0 Node_new [EvJoin nwid0; EvLeave nwid0]) nwid0 = None.
Proof. vm_compute. repeat split. Qed.

(** The fifth endpoint evicts the least recently received path, which is
    the one through endpoint 2 (endpoint 1 was heard again at 4500). *)
Example eviction_scenario :
  option_map (map ZT_Peer_summary) (ZT_Node_peers (Node_run env0 Node_new evs_five_paths))
  = Some [ (4, [(1, 4500); (5, 5000); (3, 3000); (4, 4000)]) ].
Proof. vm_compute. reflexivity. Qed.

(** Paths not heard on for [PATH_ALIVE_TIMEOUT] age out; the freed slots
    of the array are zero. *)
Example aging_scenario :
  option_map (map ZT_Peer_summary)
    (ZT_Node_peers (Node_run env0 Node_new (evs_five_paths ++ [EvBackgroundTasks 64000])))
  = Some [ (2, [(1, 4500); (5, 5000); (0, 0); (0, 0)]) ].
Proof. vm_compute. reflexivity. Qed.

(** A configuration with an MTU of 9000 is not stored; the one with 1500
    is. *)
Example config_scenario :
  (fun c => (mtu c, vnc_status c))
    <$> ZT_Node_networkConfig (Node_run env0 Node_new (take 2 evs_configs)) nwid0
  = Some (2800, ZT_NETWORK_STATUS_REQUESTING_CONFIGURATION)
  /\ (fun c => (mtu c, vnc_status c, assignedAddressCount c))
       <$> ZT_Node_networkConfig (Node_run env0 Node_new evs_configs) nwid0
     = Some (1500, ZT_NETWORK_STATUS_OK, 1).
Proof. vm_compute. split; reflexivity. Qed.

(** Three subscriptions naming two groups: two are reported. *)
Example subscription_scenario :
  (fun c => (multicastSubscriptionCount c, take 3 (multicastSubscriptions c),
             length (multicastSubscriptions c)))
    <$> ZT_Node_networkConfig (Node_run env0 Node_new evs_subscriptions) nwid0
  = Some (2, [ {| mac := 0x0180c2000000; adi := 0 |};
               {| mac := 0xffffffffffff; adi := 0x0a000001 |};
               ZT_MulticastGroup_zero ], 4096%nat).
Proof. vm_compute. reflexivity. Qed.

(** The 3-byte message reaches the send function, the 1453-byte one does
    not. *)
Example cluster_scenario :
  calls (Node_run env0 Node_new evs_cluster) = [ CallClusterSend 1 [1; 2; 3] ].
Proof. vm_compute. reflexivity. Qed.

(** A test of two hops is sent to both addresses of its first hop; one
    with 513 hops, or with a hop of 257 addresses, is refused. *)
Example circuitTest_scenario :
  ZT_Node_circuitTestBegin Node_new (circuitTest0 2 2)
  = ({| networks := ∅; peers := ∅; cluster := None; circuitTests := {[ 42 ]};
        calls := [ CallWirePacketSend 0xaabbccddee VERB_CIRCUIT_TEST;
                   CallWirePacketSend 0x1122334455 VERB_CIRCUIT_TEST ] |},
     ZT_RESULT_OK)
  /\ ZT_Node_circuitTestBegin Node_new (circuitTest0 513 2)
     = (Node_new, ZT_RESULT_ERROR_BAD_PARAMETER)
  /\ ZT_Node_circuitTestBegin Node_new (circuitTest0 2 257)
     = (Node_new, ZT_RESULT_ERROR_BAD_PARAMETER).
Proof. repeat split. Qed.

(** After joining [nwid0] and subscribing to [k] groups that differ in
    their ADI, the network holds these [k] subscriptions. *)
Lemma subscriptions_reachable (k : nat) :
  Z.of_nat k <= 2 ^ 32 ->
  exists nw : Network,
    networks (Node_run env0 Node_new
                (EvJoin nwid0
                 :: map (fun i => EvMulticastSubscribe nwid0 0x0180c2000000 (Z.of_nat i))
                      (seq 0 k))) !! nwid0
    = Some nw
    /\ nw_multicastSubs nw
       = list_to_set ((fun i => (0x0180c2000000, Z.of_nat i)) <$> seq 0 k).
Proof.
  induction k as [| k IH]; intros Hk.
  - exists (Network_new env0 nwid0). split; [vm_compute; reflexivity | reflexivity].
  - destruct IH as (nw & Hnw & Hsubs); [lia |].
    rewrite seq_S, map_app, app_comm_cons. unfold Node_run in *.
    rewrite foldl_app.
    set (m := foldl (Node_step env0) Node_new _) in *.
    simpl. unfold ZT_Node_multicastSubscribe. rewrite Hnw. simpl.
    eexists. split; [apply lookup_insert_eq |]. simpl.
    rewrite fmap_app, list_to_set_app_L, Hsubs. simpl.
    rewrite (right_id_L ∅ (∪)), (comm_L (∪)). f_equal. f_equal.
    unfold MulticastGroup_of. f_equal.
    change 0xffffffff with (Z.ones 32).
    rewrite Z.land_ones by lia. apply Z.mod_small. lia.
Qed.

(** A network with 4097 subscriptions is reachable, and it is reported
    with a count of 4096. *)
Lemma many_subscriptions_scenario :
  exists (nw : Network) (cfg : ZT_VirtualNetworkConfig),
    networks (Node_run env0 Node_new evs_many_subscriptions) !! nwid0 = Some nw
    /\ size (nw_multicastSubs nw) = 4097%nat
    /\ ZT_Node_networkConfig (Node_run env0 Node_new evs_many_subscriptions) nwid0 = Some cfg
    /\ multicastSubscriptionCount cfg = 4096.
Proof.
  destruct (subscriptions_reachable 4097) as (nw & Hnw & Hsubs); [lia |].
  assert (size (nw_multicastSubs nw) = 4097%nat) as Hsize.
  { rewrite Hsubs, size_list_to_set, length_fmap, length_seq; [done |].
    apply NoDup_fmap_2; [| apply NoDup_seq].
    intros i j [= Hij]. lia. }
  destruct (Network_externalConfig_total nwid0 nw) as [cfg Hcfg].
  exists nw, cfg. unfold evs_many_subscriptions, ZT_Node_networkConfig.
  rewrite Hnw. split; [done |]. split; [exact Hsize |]. split; [exact Hcfg |].
  apply Network_externalConfig_Some in Hcfg as (-> & _).
  rewrite Hsize. reflexivity.
Qed.

(** ** The theorems at concrete inputs *)

(** C4 at the node that has joined [nwid0]: it is a member, and joining
    again leaves it as it is. *)
Lemma ZT_Node_join_idempotent_witness :
  is_Some (networks (Node_run env0 Node_new [EvJoin nwid0]) !! nwid0)
  /\ ZT_Node_join env0 (Node_run env0 Node_new [EvJoin nwid0]) nwid0
     = (Node_run env0 Node_new [EvJoin nwid0], ZT_RESULT_OK).
Proof.
  assert (is_Some (networks (Node_run env0 Node_new [EvJoin nwid0]) !! nwid0)) as Hmember.
  { vm_compute. by eexists. }
  split; [exact Hmember |].
  exact (proj1 (ZT_Node_join_idempotent env0 _ nwid0) Hmember).
Defined.

(** C5 at the node that has joined [nwid0]: the ARP group of 10.0.0.1 is
    subscribed to twice and is there once. *)
Lemma ZT_Node_multicastSubscribe_idempotent_witness :
  networks (Node_run env0 Node_new [EvJoin nwid0]) !! nwid0 = Some (Network_new env0 nwid0)
  /\ (ZT_Node_multicastSubscribe env0
        (ZT_Node_multicastSubscribe env0 (Node_run env0 Node_new [EvJoin nwid0])
           nwid0 0xffffffffffff 0x0a000001).1 nwid0 0xffffffffffff 0x0a000001).2
     = ZT_RESULT_OK.
Proof.
  assert (networks (Node_run env0 Node_new [EvJoin nwid0]) !! nwid0
          = Some (Network_new env0 nwid0)) as Hnw by (vm_compute; reflexivity).
  split; [exact Hnw |].
  exact (proj1 (proj2 (proj2 (ZT_Node_multicastSubscribe_idempotent env0 _ nwid0
                                0xffffffffffff 0x0a000001) _ Hnw))).
Defined.

(** C6 at the cluster run: the 3-byte message was sent, within the
    bound. *)
Lemma ZT_CLUSTER_MAX_MESSAGE_LENGTH_respected_witness :
  CallClusterSend 1 [1; 2; 3] ∈ calls (Node_run env0 Node_new evs_cluster)
  /\ Z.of_nat (length [1; 2; 3]) <= ZT_CLUSTER_MAX_MESSAGE_LENGTH.
Proof.
  assert (CallClusterSend 1 [1; 2; 3] ∈ calls (Node_run env0 Node_new evs_cluster)) as Hsent.
  { assert (calls (Node_run env0 Node_new evs_cluster) = [CallClusterSend 1 [1; 2; 3]])
      as -> by (vm_compute; reflexivity).
    by left. }
  split; [exact Hsent |].
  exact (proj2 (ZT_CLUSTER_MAX_MESSAGE_LENGTH_respected env0 evs_cluster) _ _ Hsent).
Defined.

(** C7 at a test of two hops of two addresses: it is accepted, within the
    bounds. *)
Lemma ZT_CircuitTest_bounds_witness :
  (ZT_Node_circuitTestBegin Node_new (circuitTest0 2 2)).2 = ZT_RESULT_OK
  /\ hopCount (circuitTest0 2 2) <= 512
  /\ forall (i : nat) (h : ZT_CircuitTestHop),
       Z.of_nat i < hopCount (circuitTest0 2 2) ->
       hops (circuitTest0 2 2) !! i = Some h -> breadth h <= 256.
Proof.
  assert ((ZT_Node_circuitTestBegin Node_new (circuitTest0 2 2)).2 = ZT_RESULT_OK)
    as Haccepted by reflexivity.
  split; [exact Haccepted |].
  exact (proj1 (proj2 (proj2 (ZT_CircuitTest_bounds Node_new (circuitTest0 2 2)))) Haccepted).
Defined.

(** C8 at the run that stores the configuration with an MTU of 1500: the
    network is reported, with an MTU within the bound. *)
Lemma ZT_MAX_MTU_respected_witness :
  exists cfg : ZT_VirtualNetworkConfig,
    ZT_Node_networkConfig (Node_run env0 Node_new evs_configs) nwid0 = Some cfg
    /\ 0 <= mtu cfg <= ZT_MAX_MTU.
Proof.
  destruct (ZT_Node_networkConfig (Node_run env0 Node_new evs_configs) nwid0)
    as [cfg |] eqn:Hcfg.
  - exists cfg. split; [reflexivity |].
    exact (proj2 (proj2 (ZT_MAX_MTU_respected env0 evs_configs)) nwid0 cfg Hcfg).
  - exfalso. vm_compute in Hcfg. discriminate Hcfg.
Defined.


(** ** More of the header: result codes, feature flags, enumerators *)

(** X1: no two result codes share a value: the integer an entry point
    returns names one enumerator. *)
Theorem ZT_ResultCode_value_distinct (x y : ZT_ResultCode) :
  ZT_ResultCode_value x = ZT_ResultCode_value y <-> x = y.
Proof.
  split; [| by intros ->].
  destruct x, y; simpl; intros H; first [reflexivity | discriminate H].
Qed.

(** X2: on a value that an [int] holds, the macro [ZT_ResultCode_isFatal]
    is true exactly from 1 to 999: never on a negative value, never on 0,
    never from 1000 on. *)
Theorem ZT_ResultCode_isFatal_window (z : Z) :
  - 2 ^ 31 <= z < 2 ^ 31 ->
  (ZT_ResultCode_isFatal z = true <-> 1 <= z <= 999)
  /\ (z <= 0 \/ 1000 <= z -> ZT_ResultCode_isFatal z = false).
Proof.
  intros Hz. rewrite <- not_true_iff_false, ZT_ResultCode_isFatal_spec.
  rewrite (int_cast_small z Hz). lia.
Qed.

Lemma ZT_ResultCode_isFatal_window_witness :
  (ZT_ResultCode_isFatal 999 = true <-> 1 <= 999 <= 999)
  /\ (-1 <= 0 \/ 1000 <= -1 -> ZT_ResultCode_isFatal (-1) = false).
Proof.
  split.
  - apply (ZT_ResultCode_isFatal_window 999). lia.
  - apply (ZT_ResultCode_isFatal_window (-1)). lia.
Defined.

(** X3: the macro casts its argument to [int] before comparing, so on a
    wider value it sees the low 32 bits only: a multiple of 2^32 added to
    the argument does not change the answer. *)
Theorem ZT_ResultCode_isFatal_low_bits (z k : Z) :
  ZT_ResultCode_isFatal (z + k * 2 ^ 32) = ZT_ResultCode_isFatal z.
Proof.
  unfold ZT_ResultCode_isFatal, int_cast.
  replace (z + k * 2 ^ 32 + 2 ^ 31) with (z + 2 ^ 31 + k * 2 ^ 32) by lia.
  by rewrite Z.mod_add.
Qed.

Lemma lor_land_absorb (f m : Z) : Z.land (Z.lor f m) m = m.
Proof.
  apply Z.bits_inj'. intros n Hn.
  rewrite Z.land_spec, Z.lor_spec.
  destruct (Z.testbit f n), (Z.testbit m n); reflexivity.
Qed.

(** X4: the two feature flags are independent bits of the [featureFlags]
    bitmap: setting one is seen by its own test and leaves the test of the
    other as it was. *)
Theorem ZT_FEATURE_FLAG_independent (f : Z) :
  Z.land (Z.lor f ZT_FEATURE_FLAG_FIPS) ZT_FEATURE_FLAG_THREAD_SAFE
  = Z.land f ZT_FEATURE_FLAG_THREAD_SAFE
  /\ Z.land (Z.lor f ZT_FEATURE_FLAG_THREAD_SAFE) ZT_FEATURE_FLAG_FIPS
     = Z.land f ZT_FEATURE_FLAG_FIPS
  /\ Z.land (Z.lor f ZT_FEATURE_FLAG_THREAD_SAFE) ZT_FEATURE_FLAG_THREAD_SAFE
     = ZT_FEATURE_FLAG_THREAD_SAFE
  /\ Z.land (Z.lor f ZT_FEATURE_FLAG_FIPS) ZT_FEATURE_FLAG_FIPS
     = ZT_FEATURE_FLAG_FIPS.
Proof.
  repeat split; try apply lor_land_absorb;
    rewrite Z.land_lor_distr_l;
    unfold ZT_FEATURE_FLAG_FIPS, ZT_FEATURE_FLAG_THREAD_SAFE; simpl (Z.land 2 1);
    simpl (Z.land 1 2); apply Z.lor_0_r.
Qed.

(** X6: the operations passed to the port configuration callback take
    exactly the values 1 to 4, each once: 0 is no operation. *)
Theorem ZT_VirtualNetworkConfigOperation_values :
  (forall z : Z,
     (exists op, ZT_VirtualNetworkConfigOperation_value op = z) <-> 1 <= z <= 4)
  /\ forall a b : ZT_VirtualNetworkConfigOperation,
       ZT_VirtualNetworkConfigOperation_value a = ZT_VirtualNetworkConfigOperation_value b
       <-> a = b.
Proof.
  split.
  - intros z. split.
    + intros [op <-]. destruct op; simpl; lia.
    + intros Hz.
      assert (z = 1 \/ z = 2 \/ z = 3 \/ z = 4) as [-> | [-> | [-> | ->]]] by lia.
      * by exists ZT_VIRTUAL_NETWORK_CONFIG_OPERATION_UP.
      * by exists ZT_VIRTUAL_NETWORK_CONFIG_OPERATION_CONFIG_UPDATE.
      * by exists ZT_VIRTUAL_NETWORK_CONFIG_OPERATION_DOWN.
      * by exists ZT_VIRTUAL_NETWORK_CONFIG_OPERATION_DESTROY.
  - intros a b. split; [| by intros ->].
    destruct a, b; simpl; intros H; first [reflexivity | discriminate H].
Qed.

(** X7: the network status codes take exactly the values 0 to 5, each
    once, and the value of a zeroed status field is
    [ZT_NETWORK_STATUS_REQUESTING_CONFIGURATION]. *)
Theorem ZT_VirtualNetworkStatus_values :
  (forall z : Z,
     (exists st, ZT_VirtualNetworkStatus_value st = z) <-> 0 <= z <= 5)
  /\ (forall a b : ZT_VirtualNetworkStatus,
        ZT_VirtualNetworkStatus_value a = ZT_VirtualNetworkStatus_value b <-> a = b)
  /\ forall st : ZT_VirtualNetworkStatus,
       ZT_VirtualNetworkStatus_value st = 0
       <-> st = ZT_NETWORK_STATUS_REQUESTING_CONFIGURATION.
Proof.
  split; [| split].
  - intros z. split.
    + intros [st <-]. destruct st; simpl; lia.
    + intros Hz.
      assert (z = 0 \/ z = 1 \/ z = 2 \/ z = 3 \/ z = 4 \/ z = 5)
        as [-> | [-> | [-> | [-> | [-> | ->]]]]] by lia.
      * by exists ZT_NETWORK_STATUS_REQUESTING_CONFIGURATION.
      * by exists ZT_NETWORK_STATUS_OK.
      * by exists ZT_NETWORK_STATUS_ACCESS_DENIED.
      * by exists ZT_NETWORK_STATUS_NOT_FOUND.
      * by exists ZT_NETWORK_STATUS_PORT_ERROR.
      * by exists ZT_NETWORK_STATUS_CLIENT_TOO_OLD.
  - intros a b. split; [| by intros ->].
    destruct a, b; simpl; intros H; first [reflexivity | discriminate H].
  - intros st. split; [| by intros ->].
    destruct st; simpl; intros H; first [reflexivity | discriminate H].
Qed.
